(** * mitreattack-python: [STIXToCollection.stix_to_collection]

    A shallow embedding of
    [src/mitreattack/collections/stix_to_collection.py] and the properties
    of the collection builder.

    The Python function receives a bundle that [json.load] produced, copies
    it, and either hands back the caller's object, a freshly built bundle,
    [None], or leaves through an exception.  The model keeps these four
    outcomes apart: bundles live in a store of mutable objects, the
    function runs in a state-and-exception monad over that store and over
    the text written by [print], and the environment supplies what the
    function reads from outside (the clock, [uuid4], the stix2elevator
    upgrade). *)

From Stdlib Require Import List String Ascii Bool Arith ZArith Lia.

Import ListNotations.

Open Scope string_scope.

Open Scope list_scope.

Set Warnings "-register-all".

(** ** Values *)

(** What [json.load] builds: [None], [bool], [int], [str], [list] and
    [dict] with string keys.  A [dict] keeps its insertion order; lookups
    take the first binding of a key.  Floating point numbers are left out
    of the model. *)
Inductive json : Type :=
| JNull
| JBool (b : bool)
| JInt (n : Z)
| JStr (s : string)
| JList (l : list json)
| JDict (d : list (string * json)).

Definition dict := list (string * json).

Fixpoint dict_get (k : string) (d : dict) : option json :=
  match d with
  | [] => None
  | (k', v) :: d' => if String.eqb k k' then Some v else dict_get k d'
  end.

(** [d[k] = v] on a key that is already present: the binding keeps its
    place. *)
Fixpoint dict_set (k : string) (v : json) (d : dict) : dict :=
  match d with
  | [] => [(k, v)]
  | (k', v') :: d' =>
      if String.eqb k k' then (k', v) :: d' else (k', v') :: dict_set k v d'
  end.

(** Python's [==] on these values.  [bool] is a subclass of [int]
    ([True == 1]); two dicts are equal when they have the same number of
    keys and agree on every key, whatever the insertion order. *)
Definition int_of_bool (b : bool) : Z := if b then 1%Z else 0%Z.

Fixpoint py_eq (a b : json) {struct a} : bool :=
  match a, b with
  | JNull, JNull => true
  | JBool x, JBool y => Bool.eqb x y
  | JBool x, JInt n => Z.eqb (int_of_bool x) n
  | JInt m, JBool y => Z.eqb m (int_of_bool y)
  | JInt m, JInt n => Z.eqb m n
  | JStr s, JStr t => String.eqb s t
  | JList xs, JList ys =>
      (fix list_eq (xs ys : list json) {struct xs} : bool :=
         match xs, ys with
         | [], [] => true
         | x :: xs', y :: ys' => py_eq x y && list_eq xs' ys'
         | _, _ => false
         end) xs ys
  | JDict d, JDict e =>
      Nat.eqb (List.length d) (List.length e) &&
      (fix all_in (d : dict) {struct d} : bool :=
         match d with
         | [] => true
         | (k, v) :: d' =>
             match dict_get k e with
             | Some w => py_eq v w && all_in d'
             | None => false
             end
         end) d
  | _, _ => false
  end.

(** [x in l] on a list. *)
Definition py_in (x : json) (l : list json) : bool :=
  existsb (fun y => py_eq y x) l.

(** Truth value, as [if not description] reads it. *)
Definition truthy (v : json) : bool :=
  match v with
  | JNull => false
  | JBool b => b
  | JInt n => negb (Z.eqb n 0)
  | JStr s => negb (String.eqb s "")
  | JList l => match l with [] => false | _ => true end
  | JDict d => match d with [] => false | _ => true end
  end.

(** ** Exceptions and results *)

(** The exceptions of the model.  [DanglingRef] is its answer to a
    location outside the store; a Python caller cannot produce one. *)
Inductive exn : Type :=
| KeyError (k : string)
| TypeError
| AttributeError
| OtherException (msg : string)
| DanglingRef.

Inductive result (A : Type) : Type :=
| Ret (a : A)
| Raise (e : exn).

Arguments Ret {A} a.

Arguments Raise {A} e.

(** [obj[k]] with a string key: a dict answers or raises [KeyError], every
    other value raises [TypeError]. *)
Definition getitem (obj : json) (k : string) : result json :=
  match obj with
  | JDict d => match dict_get k d with
               | Some v => Ret v
               | None => Raise (KeyError k)
               end
  | _ => Raise TypeError
  end.

(** [obj.get(k, default)]: only dicts have the method. *)
Definition get_method (obj : json) (k : string) (default : json) : result json :=
  match obj with
  | JDict d => match dict_get k d with
               | Some v => Ret v
               | None => Ret default
               end
  | _ => Raise AttributeError
  end.

(** [k in obj.keys()]. *)
Definition in_keys (k : string) (obj : json) : result bool :=
  match obj with
  | JDict d => Ret (match dict_get k d with Some _ => true | None => false end)
  | _ => Raise AttributeError
  end.

(** A [str] is a sequence of code points; the model holds it as the bytes
    of its UTF-8 encoding (a lone surrogate by the same three-byte scheme).
    In that encoding a byte of the form [10xxxxxx] continues a code point
    and every other byte starts one. *)
Definition continuation (c : ascii) : bool :=
  match c with
  | Ascii _ _ _ _ _ _ b6 b7 => b7 && negb b6
  end.

(** The iterator of a [str], reading from the left: [cur] holds the bytes
    of the code point being read; a byte that starts a code point yields
    the one read so far. *)
Fixpoint chars_from (cur : string) (s : string) : list json :=
  match s with
  | EmptyString => [JStr cur]
  | String c s' =>
      if continuation c
      then chars_from (cur ++ String c EmptyString)%string s'
      else JStr cur :: chars_from (String c EmptyString) s'
  end.

(** [for ch in s] on a [str]: one string of length one per code point. *)
Definition chars (s : string) : list json :=
  match s with
  | EmptyString => []
  | String c s' => chars_from (String c EmptyString) s'
  end.

(** The items a [for] loop draws from a value: the elements of a list, the
    characters of a string, the keys of a dict; the rest is not iterable. *)
Definition py_iter (v : json) : result (list json) :=
  match v with
  | JList l => Ret l
  | JStr s => Ret (chars s)
  | JDict d => Ret (map (fun kv => JStr (fst kv)) d)
  | _ => Raise TypeError
  end.

(** ** The outside world *)

(** A naive [datetime], the seven fields [strftime] reads. *)
Record datetime : Type := {
  year : nat; month : nat; day : nat;
  hour : nat; minute : nat; second : nat; microsecond : nat
}.

Definition digit (n : nat) : ascii := ascii_of_nat (48 + n mod 10).

(** [n] in exactly [w] decimal digits, zero padded ([%m], [%d], [%H], [%M],
    [%S] with two, [%f] with six). *)
Fixpoint digits (w n : nat) : string :=
  match w with
  | O => ""
  | S w' => (digits w' (n / 10) ++ String (digit n) "")%string
  end.

Fixpoint decimal_aux (fuel n : nat) (acc : string) : string :=
  match fuel with
  | O => acc
  | S fuel' =>
      let acc' := String (digit n) acc in
      if Nat.ltb n 10 then acc' else decimal_aux fuel' (n / 10) acc'
  end.

(** [n] in decimal without padding: what the C library prints for [%Y]
    (years from 1000 on have their four digits; platforms differ only
    below, where the clock of a running host does not go). *)
Definition decimal (n : nat) : string := decimal_aux (S n) n "".

(** [t.strftime("%Y-%m-%dT%H:%M:%S.%fZ")]: the trailing [Z] is a literal of
    the format, not a conversion. *)
Definition strftime (t : datetime) : string :=
  (decimal (year t) ++ "-" ++ digits 2 (month t) ++ "-" ++ digits 2 (day t)
   ++ "T" ++ digits 2 (hour t) ++ ":" ++ digits 2 (minute t) ++ ":"
   ++ digits 2 (second t) ++ "." ++ digits 6 (microsecond t) ++ "Z")%string.

(** What one call reads from outside the bundle.
    - [now]: the answer of [datetime.now()], the host's local wall clock
      (no [tz] argument is passed);
    - [utcnow]: the same instant on the UTC clock; the function never reads
      it, it is here so that statements can speak about UTC;
    - [uuid4]: the text of the identifier [uuid4()] draws;
    - [step_bundle]: stix2elevator's [initialize_options] followed by
      [step_bundle] on the working copy: the upgraded bundle, or the
      exception the library raised. *)
Record env : Type := {
  now : datetime;
  utcnow : datetime;
  uuid4 : string;
  step_bundle : json -> result json
}.

(** The arguments one can pass as [limit] to [traceback.print_exc]. *)
Inductive limit_arg : Type :=
| LimitNone
| LimitInt (n : Z)
| LimitExn (e : exn).

(** [traceback.print_exc(limit=None, file=None, chain=True)] of the
    standard library: its first positional parameter is [limit].  While the
    stack summary is extracted, a [limit] other than [None] is compared
    with [limit >= 0]; an exception instance has no order against [int], so
    the comparison raises [TypeError].  Otherwise the trace goes to stderr
    and the call returns [None]. *)
Definition traceback_print_exc (limit : limit_arg) : result json :=
  match limit with
  | LimitExn _ => Raise TypeError
  | _ => Ret JNull
  end.

(** The lines [print] writes, one constructor per [print] call of the
    source, carrying the values its f-string interpolates. *)
Inductive diag : Type :=
| NoteUpgrading                                   (* line 35 *)
| NoteUpgraded                                    (* line 41 *)
| ErrorUpgrade (e : exn)                          (* line 48 *)
| ErrorTrace (t : json)                           (* line 52 *)
| ErrorSpecVersion (v : json)                     (* line 55 *)
| ErrorMissingField (obj : json) (e : exn)        (* line 83 *)
| NoteMultipleCreatedBy (kept other : json).      (* line 92 *)

(** ** Store and monad *)

Definition loc := nat.

(** What [stix_to_collection] returns: [None] or a reference to a bundle. *)
Inductive pyval : Type :=
| VNone
| VRef (l : loc).

(** The store holds the bundles (each a tree of its own: [json.load] and
    [copy.deepcopy] build objects that share nothing with any other), and
    [stdout] the lines printed so far. *)
Record world : Type := {
  heap : list json;
  stdout : list diag
}.

Definition M (A : Type) : Type := world -> result A * world.

Definition ret {A} (a : A) : M A := fun w => (Ret a, w).

Definition raise {A} (e : exn) : M A := fun w => (Raise e, w).

Definition bind {A B} (m : M A) (k : A -> M B) : M B :=
  fun w => match m w with
           | (Ret a, w') => k a w'
           | (Raise e, w') => (Raise e, w')
           end.

Definition lift {A} (r : result A) : M A := fun w => (r, w).

Notation "x <- m ;; k" := (bind m (fun x => k))
  (at level 61, m at next level, right associativity).

Notation "m ;;; k" := (bind m (fun _ => k))
  (at level 61, right associativity).

Definition print (d : diag) : M unit :=
  fun w => (Ret tt, {| heap := heap w; stdout := stdout w ++ [d] |}).

Definition deref (l : loc) : M json :=
  fun w => match nth_error (heap w) l with
           | Some v => (Ret v, w)
           | None => (Raise DanglingRef, w)
           end.

Fixpoint list_set {A} (i : nat) (x : A) (l : list A) : list A :=
  match l, i with
  | [], _ => []
  | _ :: l', O => x :: l'
  | y :: l', S i' => y :: list_set i' x l'
  end.

(** In-place mutation of the object at [l]. *)
Definition store (l : loc) (v : json) : M unit :=
  fun w => (Ret tt, {| heap := list_set l v (heap w); stdout := stdout w |}).

(** [copy.deepcopy(l)]: a new object with the same contents. *)
Definition deepcopy (l : loc) : M loc :=
  v <- deref l ;;
  fun w => (Ret (List.length (heap w)),
            {| heap := heap w ++ [v]; stdout := stdout w |}).

(** ** The function *)

Definition X_MITRE_SPEC_VERSION : string := "2.1.0".

Definition default_description : string :=
  "This collection was autogenerated by STIXToCollection, as part of mitreattack-python".

(** The dict [raw_collection] of lines 62-75, a record with one field per
    key; [created_by_ref], [object_marking_refs] and [x_mitre_contents] are
    the three the loop updates. *)
Record raw_collection : Type := {
  type_ : json;
  id_ : json;
  spec_version : json;
  name_ : json;
  x_mitre_version : json;
  x_mitre_attack_spec_version : json;
  description_ : json;
  created_by_ref : json;
  created : json;
  modified : json;
  object_marking_refs : list json;
  x_mitre_contents : list json
}.

(** The dict itself, keys in the order of the [dict(...)] call. *)
Definition to_dict (c : raw_collection) : json :=
  JDict [ ("type", type_ c); ("id", id_ c); ("spec_version", spec_version c);
          ("name", name_ c); ("x_mitre_version", x_mitre_version c);
          ("x_mitre_attack_spec_version", x_mitre_attack_spec_version c);
          ("description", description_ c);
          ("created_by_ref", created_by_ref c);
          ("created", created c); ("modified", modified c);
          ("object_marking_refs", JList (object_marking_refs c));
          ("x_mitre_contents", JList (x_mitre_contents c)) ].

Definition set_created_by_ref (v : json) (c : raw_collection) : raw_collection :=
  {| type_ := type_ c; id_ := id_ c; spec_version := spec_version c;
     name_ := name_ c; x_mitre_version := x_mitre_version c;
     x_mitre_attack_spec_version := x_mitre_attack_spec_version c;
     description_ := description_ c; created_by_ref := v;
     created := created c; modified := modified c;
     object_marking_refs := object_marking_refs c;
     x_mitre_contents := x_mitre_contents c |}.

Definition set_object_marking_refs (l : list json) (c : raw_collection) : raw_collection :=
  {| type_ := type_ c; id_ := id_ c; spec_version := spec_version c;
     name_ := name_ c; x_mitre_version := x_mitre_version c;
     x_mitre_attack_spec_version := x_mitre_attack_spec_version c;
     description_ := description_ c; created_by_ref := created_by_ref c;
     created := created c; modified := modified c;
     object_marking_refs := l;
     x_mitre_contents := x_mitre_contents c |}.

Definition set_x_mitre_contents (l : list json) (c : raw_collection) : raw_collection :=
  {| type_ := type_ c; id_ := id_ c; spec_version := spec_version c;
     name_ := name_ c; x_mitre_version := x_mitre_version c;
     x_mitre_attack_spec_version := x_mitre_attack_spec_version c;
     description_ := description_ c; created_by_ref := created_by_ref c;
     created := created c; modified := modified c;
     object_marking_refs := object_marking_refs c;
     x_mitre_contents := l |}.

(** Lines 30-32: the scan for an existing collection.  [Ret true] is the
    early [return bundle]. *)
Fixpoint contains_collection (objs : list json) : result bool :=
  match objs with
  | [] => Ret false
  | obj :: rest =>
      match getitem obj "type" with
      | Raise e => Raise e
      | Ret t =>
          if py_eq t (JStr "x-mitre-collection") then Ret true
          else contains_collection rest
      end
  end.

(** Lines 86-88: the inner loop over one object's marking references. *)
Fixpoint add_marking_refs (omrs : list json) (acc : list json) : list json :=
  match omrs with
  | [] => acc
  | omr :: rest =>
      add_marking_refs rest (if py_in omr acc then acc else acc ++ [omr])
  end.

(** [dict(object_ref=obj["id"], object_modified=obj["modified"])]. *)
Definition content_entry (obj : json) : result json :=
  match getitem obj "id" with
  | Raise e => Raise e
  | Ret i =>
      match getitem obj "modified" with
      | Raise e => Raise e
      | Ret m => Ret (JDict [("object_ref", i); ("object_modified", m)])
      end
  end.

(** Lines 77-98: the body of the aggregation loop for one object.  [None]
    is the [return None] of line 84. *)
Definition visit (obj : json) (raw : raw_collection) : M (option raw_collection) :=
  t <- lift (getitem obj "type") ;;
  if py_eq t (JStr "marking-definition") then ret (Some raw)
  else
    match content_entry obj with
    | Raise (KeyError k) =>
        print (ErrorMissingField obj (KeyError k)) ;;; ret None
    | Raise e => raise e
    | Ret entry =>
        let raw := set_x_mitre_contents (x_mitre_contents raw ++ [entry]) raw in
        has_omr <- lift (in_keys "object_marking_refs" obj) ;;
        raw <- (if has_omr
                then v <- lift (getitem obj "object_marking_refs") ;;
                     omrs <- lift (py_iter v) ;;
                     ret (set_object_marking_refs
                            (add_marking_refs omrs (object_marking_refs raw)) raw)
                else ret raw) ;;
        has_cbr <- lift (in_keys "created_by_ref" obj) ;;
        if has_cbr
        then c <- lift (getitem obj "created_by_ref") ;;
             if negb (py_eq c (created_by_ref raw))
             then if negb (py_eq (created_by_ref raw) (JStr ""))
                  then print (NoteMultipleCreatedBy (created_by_ref raw) c) ;;;
                       ret (Some raw)
                  else ret (Some (set_created_by_ref c raw))
             else ret (Some raw)
        else ret (Some raw)
    end.

(** Lines 76-98: the loop. *)
Fixpoint aggregate (objs : list json) (raw : raw_collection)
  : M (option raw_collection) :=
  match objs with
  | [] => ret (Some raw)
  | obj :: rest =>
      r <- visit obj raw ;;
      match r with
      | None => ret None
      | Some raw' => aggregate rest raw'
      end
  end.

(** [for obj in working_bundle["objects"]]: the items the loop will see. *)
Definition objects_of (l : loc) : M (list json) :=
  b <- deref l ;;
  v <- lift (getitem b "objects") ;;
  lift (py_iter v).

(** Lines 33-53: the [try] block of the 2.0 branch.  [false] is the
    [return None] of line 53. *)
Definition upgrade (E : env) (working_bundle : loc) : M bool :=
  print NoteUpgrading ;;;
  wb <- deref working_bundle ;;
  match step_bundle E wb with
  | Ret wb' =>
      store working_bundle wb' ;;;
      print NoteUpgraded ;;;
      ret true
  | Raise e =>
      print (ErrorUpgrade e) ;;;
      t <- lift (traceback_print_exc (LimitExn e)) ;;
      print (ErrorTrace t) ;;;
      ret false
  end.

(** Lines 54-58. *)
Definition check_spec_version (bundle working_bundle : loc) : M unit :=
  b <- deref bundle ;;
  sv <- lift (get_method b "spec_version" (JStr "")) ;;
  if negb (py_eq sv (JStr "2.1")) && negb (py_eq sv (JStr "2.0"))
  then wb <- deref working_bundle ;;
       v <- lift (get_method wb "spec_version" (JStr "[NOT FOUND]")) ;;
       print (ErrorSpecVersion v)
  else ret tt.

(** Lines 59-75. *)
Definition new_collection (E : env) (name version description : json)
  : raw_collection :=
  let time := strftime (now E) in
  let description :=
    if negb (truthy description) then JStr default_description
    else description in
  {| type_ := JStr "x-mitre-collection";
     id_ := JStr ("x-mitre-collection--" ++ uuid4 E)%string;
     spec_version := JStr "2.1";
     name_ := name;
     x_mitre_version := version;
     x_mitre_attack_spec_version := JStr X_MITRE_SPEC_VERSION;
     description_ := description;
     created_by_ref := JStr "";
     created := JStr time;
     modified := JStr time;
     object_marking_refs := [];
     x_mitre_contents := [] |}.

(** Line 100: [working_bundle["objects"].insert(0, raw_collection)]; only a
    list has [insert]. *)
Definition insert_front (working_bundle : loc) (raw : raw_collection) : M unit :=
  wb <- deref working_bundle ;;
  v <- lift (getitem wb "objects") ;;
  match v, wb with
  | JList l, JDict d =>
      store working_bundle (JDict (dict_set "objects" (JList (to_dict raw :: l)) d))
  | _, _ => raise AttributeError
  end.

(** Lines 59-101: the collection object, the aggregation loop and the
    insertion. *)
Definition build (E : env) (working_bundle : loc)
    (name version description : json) : M pyval :=
  let raw_collection := new_collection E name version description in
  objs <- objects_of working_bundle ;;
  r <- aggregate objs raw_collection ;;
  match r with
  | None => ret VNone
  | Some raw_collection =>
      insert_front working_bundle raw_collection ;;;
      ret (VRef working_bundle)
  end.

(** Lines 33-101: what happens once no collection was found. *)
Definition convert (E : env) (bundle working_bundle : loc)
    (name version description : json) : M pyval :=
  b <- deref bundle ;;
  sv <- lift (get_method b "spec_version" (JStr "")) ;;
  continue <- (if py_eq sv (JStr "2.0") then upgrade E working_bundle
               else ret true) ;;
  if negb continue then ret VNone
  else
    check_spec_version bundle working_bundle ;;;
    build E working_bundle name version description.

Definition stix_to_collection (E : env) (bundle : loc)
    (name version description : json) : M pyval :=
  working_bundle <- deepcopy bundle ;;
  objs <- objects_of working_bundle ;;
  found <- lift (contains_collection objs) ;;
  if found then ret (VRef bundle)
  else convert E bundle working_bundle name version description.

(** ** Reading a bundle

    The vocabulary of the statements: what an object carries, without the
    exceptions of the accessors above. *)

Definition field (k : string) (obj : json) : option json :=
  match obj with
  | JDict d => dict_get k d
  | _ => None
  end.

Definition has_field (k : string) (obj : json) : bool :=
  match field k obj with Some _ => true | None => false end.

(** The object is a mapping that carries a [type]. *)
Definition typed (obj : json) : bool := has_field "type" obj.

(** The object's [type] equals [t]. *)
Definition has_type (t : string) (obj : json) : bool :=
  match field "type" obj with
  | Some v => py_eq v (JStr t)
  | None => false
  end.

(** A content object: any member not of type [marking-definition]. *)
Definition is_content (obj : json) : bool :=
  negb (has_type "marking-definition" obj).

Definition iterable (v : json) : bool :=
  match v with
  | JList _ | JStr _ | JDict _ => true
  | _ => false
  end.

(** [object_marking_refs], where present, can be looped over. *)
Definition refs_iterable (obj : json) : bool :=
  match field "object_marking_refs" obj with
  | Some v => iterable v
  | None => true
  end.

(** The string goes on inside a code point: its first byte is a
    continuation byte. *)
Definition continues (s : string) : bool :=
  match s with
  | String c _ => continuation c
  | EmptyString => false
  end.

(** The code points of a string, each with the bytes of its encoding: the
    string cut before every byte that starts a code point. *)
Fixpoint code_points (s : string) : list string :=
  match s with
  | EmptyString => []
  | String c s' =>
      if continues s'
      then match code_points s' with
           | g :: gs => String c g :: gs
           | [] => [String c EmptyString]
           end
      else String c EmptyString :: code_points s'
  end.

(** What a value holds, item by item: the elements of a list, the code
    points of a string, the keys of a mapping; nothing for the rest. *)
Definition items (v : json) : list json :=
  match v with
  | JList l => l
  | JStr s => map JStr (code_points s)
  | JDict d => map (fun kv => JStr (fst kv)) d
  | _ => []
  end.

(** The entry [{object_ref: O.id, object_modified: O.modified}] of [O]. *)
Definition entry_of (obj : json) : option json :=
  match field "id" obj, field "modified" obj with
  | Some i, Some m => Some (JDict [("object_ref", i); ("object_modified", m)])
  | _, _ => None
  end.

Definition entries (objs : list json) : list json :=
  flat_map (fun o => match entry_of o with Some e => [e] | None => [] end)
           (filter is_content objs).

(** The marking references of the content objects, in bundle order. *)
Definition marking_refs (objs : list json) : list json :=
  flat_map (fun o => match field "object_marking_refs" o with
                     | Some v => items v
                     | None => []
                     end)
           (filter is_content objs).

(** The [created_by_ref] values of the content objects, in bundle order. *)
Definition authors (objs : list json) : list json :=
  flat_map (fun o => match field "created_by_ref" o with
                     | Some c => [c]
                     | None => []
                     end)
           (filter is_content objs).

(** Lines 90-98 on the current value [cur] and an object's value [c]. *)
Definition adopt (cur c : json) : json :=
  if negb (py_eq c cur)
  then if negb (py_eq cur (JStr "")) then cur else c
  else cur.

Definition conflict (cur c : json) : list diag :=
  if negb (py_eq c cur) && negb (py_eq cur (JStr ""))
  then [NoteMultipleCreatedBy cur c]
  else [].

Fixpoint conflicts (cur : json) (cs : list json) : list diag :=
  match cs with
  | [] => []
  | c :: cs' => conflict cur c ++ conflicts (adopt cur c) cs'
  end.

(** An object the aggregation loop gets through. *)
Definition good (obj : json) : bool :=
  typed obj &&
  (negb (is_content obj) ||
   (has_field "id" obj && has_field "modified" obj && refs_iterable obj)).

(** What the loop leaves in [raw_collection] after the objects [objs]. *)
Definition summary (objs : list json) (raw : raw_collection) : raw_collection :=
  {| type_ := type_ raw; id_ := id_ raw; spec_version := spec_version raw;
     name_ := name_ raw; x_mitre_version := x_mitre_version raw;
     x_mitre_attack_spec_version := x_mitre_attack_spec_version raw;
     description_ := description_ raw;
     created_by_ref := fold_left adopt (authors objs) (created_by_ref raw);
     created := created raw; modified := modified raw;
     object_marking_refs :=
       add_marking_refs (marking_refs objs) (object_marking_refs raw);
     x_mitre_contents := x_mitre_contents raw ++ entries objs |}.

Definition emit (ds : list diag) (w : world) : world :=
  {| heap := heap w; stdout := stdout w ++ ds |}.

(** The key named by the [KeyError] of line 82: [obj["id"]] is evaluated
    first. *)
Definition missing_key (obj : json) : string :=
  if has_field "id" obj then "modified" else "id".

(** The bundle that line 100 leaves at the working location. *)
Definition with_collection (raw : raw_collection) (objs : list json) (d : dict)
  : json :=
  JDict (dict_set "objects" (JList (to_dict raw :: objs)) d).

(** ** Outcomes

    The worlds and the lines the phases of a call leave behind, for the
    statements below. *)

(** [keeps n m]: running [m] allocates nothing and leaves the first [n]
    objects of the store as they were. *)
Definition keeps (n : nat) {A} (m : M A) : Prop :=
  forall w,
    List.length (heap (snd (m w))) = List.length (heap w) /\
    firstn n (heap (snd (m w))) = firstn n (heap w).

(** The items line 30 loops over, read off the bundle. *)
Definition objects (b : json) : result (list json) :=
  match getitem b "objects" with
  | Ret x => py_iter x
  | Raise e => Raise e
  end.

(** The store once [copy.deepcopy] has run. *)
Definition copied (bj : json) (w : world) : world :=
  {| heap := heap w ++ [bj]; stdout := stdout w |}.

(** [bundle.get("spec_version", "")]. *)
Definition spec_version_of (d : dict) : json :=
  match dict_get "spec_version" d with
  | Some v => v
  | None => JStr ""
  end.

(** The line written by lines 54-58, if any. *)
Definition version_warning (d : dict) : list diag :=
  if negb (py_eq (spec_version_of d) (JStr "2.1"))
     && negb (py_eq (spec_version_of d) (JStr "2.0"))
  then [ErrorSpecVersion (match dict_get "spec_version" d with
                          | Some v => v
                          | None => JStr "[NOT FOUND]"
                          end)]
  else [].

(** The bundle the aggregation loop runs over: the copy itself, or what
    the upgrade made of it when the input says [2.0]. *)
Definition working_bundle_of (E : env) (d : dict) : result json :=
  if py_eq (spec_version_of d) (JStr "2.0") then step_bundle E (JDict d)
  else Ret (JDict d).

(** The lines printed before the aggregation loop starts. *)
Definition preamble (d : dict) : list diag :=
  if py_eq (spec_version_of d) (JStr "2.0") then [NoteUpgrading; NoteUpgraded]
  else version_warning d.

(** The world a successful conversion leaves. *)
Definition converted (E : env) (name version description : json)
    (d wd : dict) (wobjs : list json) (w : world) : world :=
  {| heap :=
       heap w ++
       [with_collection
          (summary wobjs (new_collection E name version description))
          wobjs wd];
     stdout := stdout w ++ preamble d ++ conflicts (JStr "") (authors wobjs) |}.

(** ** Premises and conclusions

    The predicates the properties are stated with. *)

(** An object the scan steps over: it carries a [type], and the type is
    not [x-mitre-collection]. *)
Definition passes_scan (obj : json) : bool :=
  typed obj && negb (has_type "x-mitre-collection" obj).

(** [e] is the entry [{object_ref: O.id, object_modified: O.modified}]
    of [o]. *)
Definition indexes (o e : json) : Prop :=
  exists i m,
    field "id" o = Some i /\ field "modified" o = Some m /\
    e = JDict [("object_ref", i); ("object_modified", m)].

(** Content objects carry [id] and [modified]. *)
Definition identified (obj : json) : bool :=
  negb (is_content obj) || (has_field "id" obj && has_field "modified" obj).

(** Content objects carry marking references that can be looped over, if
    they carry any. *)
Definition markable (obj : json) : bool :=
  negb (is_content obj) || refs_iterable obj.

(** What line 56 shows for the version. *)
Definition shown_version (d : dict) : json :=
  match dict_get "spec_version" d with
  | Some v => v
  | None => JStr "[NOT FOUND]"
  end.

Definition bundle_without_version (objs : list json) : dict :=
  [("type", JStr "bundle"); ("objects", JList objs)].

Definition nonempty (c : json) : bool := negb (py_eq c (JStr "")).

(** The first value that differs from the empty string, if any. *)
Definition first_author (cs : list json) : json :=
  match find nonempty cs with
  | Some c => c
  | None => JStr ""
  end.

(** One note per value after the first-seen one that differs from it. *)
Fixpoint author_notes (cs : list json) : list diag :=
  match cs with
  | [] => []
  | c :: cs' =>
      if nonempty c
      then map (NoteMultipleCreatedBy c)
               (filter (fun c' => negb (py_eq c' c)) cs')
      else author_notes cs'
  end.





(** ** Sample data *)

Definition clock_noon : datetime :=
  {| year := 2024; month := 1; day := 2;
     hour := 12; minute := 0; second := 5; microsecond := 42 |}.

Definition clock_ten : datetime :=
  {| year := 2024; month := 1; day := 2;
     hour := 10; minute := 0; second := 5; microsecond := 42 |}.

(** A host two hours east of Greenwich whose upgrade fails. *)
Definition host_failing : env :=
  {| now := clock_noon; utcnow := clock_ten; uuid4 := "0000";
     step_bundle := fun _ => Raise (OtherException "elevator") |}.

(** The same host with an upgrade that returns the bundle as it got it. *)
Definition host_stepping : env :=
  {| now := clock_noon; utcnow := clock_ten; uuid4 := "0000";
     step_bundle := fun b => Ret b |}.

Definition pattern_a : json :=
  JDict [("type", JStr "attack-pattern"); ("id", JStr "a");
         ("modified", JStr "t1");
         ("object_marking_refs", JList [JStr "m1"]);
         ("created_by_ref", JStr "x")].

Definition marking_m1 : json :=
  JDict [("type", JStr "marking-definition"); ("id", JStr "m1");
         ("object_marking_refs", JList [JStr "m9"])].

Definition malware_b : json :=
  JDict [("type", JStr "malware"); ("id", JStr "b"); ("modified", JStr "t2");
         ("object_marking_refs", JList [JStr "m1"; JStr "m2"]);
         ("created_by_ref", JStr "y")].

Definition tool_c : json :=
  JDict [("type", JStr "tool"); ("id", JStr "c"); ("modified", JStr "t3");
         ("object_marking_refs", JList [JStr "m2"])].

Definition tool_no_modified : json :=
  JDict [("type", JStr "tool"); ("id", JStr "c")].

Definition sample_objects : list json :=
  [pattern_a; marking_m1; malware_b; tool_c].

Definition bundle_of (v : string) (objs : list json) : dict :=
  [("type", JStr "bundle"); ("id", JStr "bundle--1");
   ("spec_version", JStr v); ("objects", JList objs)].

Definition world_of (b : dict) : world := {| heap := [JDict b]; stdout := [] |}.

(** ** More vocabulary *)

(** The keys of a mapping, in insertion order. *)
Definition keys (v : json) : list string :=
  match v with
  | JDict d => map fst d
  | _ => []
  end.

(** The keys of [raw_collection], in the order of the [dict(...)] call of
    lines 62-75. *)
Definition collection_keys : list string :=
  ["type"; "id"; "spec_version"; "name"; "x_mitre_version";
   "x_mitre_attack_spec_version"; "description"; "created_by_ref";
   "created"; "modified"; "object_marking_refs"; "x_mitre_contents"].

Definition tool_null_refs : json :=
  JDict [("type", JStr "tool"); ("id", JStr "d"); ("modified", JStr "t4");
         ("object_marking_refs", JNull)].


(** ** The command line entry point *)

(** The namespace [main] receives, with the five attributes it reads. *)
Record args : Type := {
  name : json;
  version : json;
  input : string;
  output : string;
  description : json
}.

(** The files, by path, with their text; the first binding of a path is
    the file's content. *)
Definition files := list (string * string).

Fixpoint file_read (path : string) (fs : files) : option string :=
  match fs with
  | [] => None
  | (p, text) :: fs' => if String.eqb path p then Some text else file_read path fs'
  end.

Definition file_write (path text : string) (fs : files) : files :=
  (path, text) :: fs.

(** What [main] takes from the standard library and the operating system.
    - [json_load]: [json.load] on a file opened with the [utf-16] codec,
      as a function of the file's content: the parsed value, or the
      exception of the codec or of the parser;
    - [json_dumps]: [json.dumps(v, indent=4)], [None] standing for
      Python's [None];
    - [can_write]: whether [open(path, "w")] succeeds. *)
Record library : Type := {
  json_load : string -> result json;
  json_dumps : option json -> string;
  can_write : string -> bool
}.

(** The files and the interpreter's memory. *)
Record machine : Type := {
  disk : files;
  memory : world
}.

(** The value behind what [stix_to_collection] returned. *)
Definition value_of (v : pyval) (w : world) : option json :=
  match v with
  | VNone => None
  | VRef r => nth_error (heap w) r
  end.

(** Lines 104-113.  The input is read and parsed first; the output is then
    opened for writing, which creates or empties it; only then is the
    argument of [f2.write] evaluated.  A failing [open] raises an
    [OSError]; the [with] blocks close both files on every way out. *)
Definition main (L : library) (E : env) (a : args)
  : machine -> result unit * machine :=
  fun m =>
    match file_read (input a) (disk m) with
    | None => (Raise (OtherException "OSError"), m)
    | Some text =>
        match json_load L text with
        | Raise e => (Raise e, m)
        | Ret loaded =>
            let bundle := List.length (heap (memory m)) in
            let mem1 := {| heap := heap (memory m) ++ [loaded];
                           stdout := stdout (memory m) |} in
            if can_write L (output a)
            then
              let disk1 := file_write (output a) "" (disk m) in
              match stix_to_collection E bundle (name a) (version a)
                      (description a) mem1 with
              | (Raise e, mem2) =>
                  (Raise e, {| disk := disk1; memory := mem2 |})
              | (Ret v, mem2) =>
                  (Ret tt,
                   {| disk := file_write (output a)
                                (json_dumps L (value_of v mem2)) disk1;
                      memory := mem2 |})
              end
            else (Raise (OtherException "OSError"),
                  {| disk := disk m; memory := mem1 |})
        end
    end.

(** A library for the examples: every file parses to the same bundle, and
    [dumps] only tells [None] from a value. *)
Definition library_of (b : json) : library :=
  {| json_load := fun _ => Ret b;
     json_dumps := fun v => match v with None => "null" | Some _ => "{...}" end;
     can_write := fun _ => true |}.

Definition sample_args (i o : string) : args :=
  {| name := JStr "n"; version := JStr "1"; input := i; output := o;
     description := JNull |}.

Definition sample_machine : machine :=
  {| disk := [("in.json", "text"); ("out.json", "old")];
     memory := {| heap := []; stdout := [] |} |}.

(** * Properties *)

(** ** The characters of a string *)

Lemma chars_from_code_points cur s :
  chars_from cur s
  = if continues s
    then match code_points s with
         | g :: gs => JStr (cur ++ g)%string :: map JStr gs
         | [] => [JStr cur]
         end
    else JStr cur :: map JStr (code_points s).
Proof.
  assert (Hsnoc : forall a c t,
             ((a ++ String c EmptyString) ++ t)%string
             = (a ++ String c t)%string).
  { induction a as [|x a IHa]; intros c t; simpl; [reflexivity|].
    now rewrite IHa. }
  revert cur; induction s as [|c s IH]; intros cur.
  - reflexivity.
  - cbn [chars_from continues code_points].
    destruct (continuation c) eqn:Hc.
    + rewrite IH. destruct (continues s).
      * destruct (code_points s) as [|g gs]; simpl.
        -- reflexivity.
        -- now rewrite Hsnoc.
      * reflexivity.
    + rewrite IH. destruct (continues s).
      * destruct (code_points s) as [|g gs]; reflexivity.
      * reflexivity.
Qed.

(** The iterator yields the code points of the string, in order. *)
Lemma chars_code_points s : chars s = map JStr (code_points s).
Proof.
  destruct s as [|c s]; [reflexivity|].
  cbn [chars code_points]. rewrite chars_from_code_points.
  destruct (continues s).
  - destruct (code_points s) as [|g gs]; reflexivity.
  - reflexivity.
Qed.

(** What the loop draws from an iterable value is what the value holds. *)
Lemma py_iter_items v l : py_iter v = Ret l -> items v = l.
Proof.
  destruct v; simpl; try discriminate; intros H; inversion H; auto.
  now rewrite chars_code_points.
Qed.

(** ** The aggregation loop *)

Lemma emit_nil w : emit [] w = w.
Proof. destruct w; unfold emit; simpl. now rewrite app_nil_r. Qed.

Lemma emit_emit ds ds' w : emit ds' (emit ds w) = emit (ds ++ ds') w.
Proof. unfold emit; simpl. now rewrite app_assoc. Qed.

Lemma add_marking_refs_app a b acc :
  add_marking_refs (a ++ b) acc = add_marking_refs b (add_marking_refs a acc).
Proof. revert acc; induction a as [|x a IH]; intros acc; simpl; auto. Qed.

Lemma conflicts_app cur a b :
  conflicts cur (a ++ b) = conflicts cur a ++ conflicts (fold_left adopt a cur) b.
Proof.
  revert cur; induction a as [|c a IH]; intros cur; simpl; auto.
  now rewrite IH, app_assoc.
Qed.

Lemma summary_nil raw : summary [] raw = raw.
Proof. destruct raw; unfold summary; simpl. now rewrite app_nil_r. Qed.

Lemma summary_cons o objs raw :
  summary (o :: objs) raw = summary objs (summary [o] raw).
Proof.
  unfold summary, entries, marking_refs, authors; simpl.
  destruct (is_content o); simpl.
  - rewrite !app_nil_r, add_marking_refs_app, fold_left_app, <- app_assoc.
    reflexivity.
  - rewrite app_nil_r. reflexivity.
Qed.

Lemma conflicts_cons o objs cur :
  conflicts cur (authors (o :: objs))
  = conflicts cur (authors [o])
    ++ conflicts (fold_left adopt (authors [o]) cur) (authors objs).
Proof.
  rewrite <- conflicts_app. f_equal.
  unfold authors; simpl. destruct (is_content o); simpl; auto.
  now rewrite app_nil_r.
Qed.

(** One pass of the loop body over a good object. *)
Lemma visit_good obj raw w :
  good obj = true ->
  visit obj raw w
  = (Ret (Some (summary [obj] raw)),
     emit (conflicts (created_by_ref raw) (authors [obj])) w).
Proof.
  unfold good, typed, is_content, has_type, has_field, refs_iterable.
  destruct obj as [| | | | |d]; simpl; try discriminate.
  destruct (dict_get "type" d) as [t|] eqn:Ht; simpl; try discriminate.
  unfold visit, bind, lift, ret, summary, entries, marking_refs, authors,
    is_content, has_type, entry_of; simpl.
  rewrite Ht; simpl.
  destruct (py_eq t (JStr "marking-definition")) eqn:Hmd; simpl.
  - intros _. rewrite emit_nil. destruct raw; simpl. now rewrite app_nil_r.
  - unfold content_entry; simpl.
    destruct (dict_get "id" d) as [i|]; simpl; try discriminate.
    destruct (dict_get "modified" d) as [m|]; simpl; try discriminate.
    destruct (dict_get "object_marking_refs" d) as [v|] eqn:Hv; simpl.
    + destruct v; simpl; try discriminate; intros _;
        rewrite ?chars_code_points, ?app_nil_r;
        (destruct (dict_get "created_by_ref" d) as [c|]; simpl;
         [ unfold adopt, conflict, print;
           destruct (py_eq c (created_by_ref raw)); simpl;
           [ rewrite emit_nil; reflexivity
           | destruct (py_eq (created_by_ref raw) (JStr "")); simpl;
             [ rewrite emit_nil; reflexivity | reflexivity ] ]
         | rewrite emit_nil; reflexivity ]).
    + intros _.
      destruct (dict_get "created_by_ref" d) as [c|]; simpl.
      * unfold adopt, conflict, print.
        destruct (py_eq c (created_by_ref raw)); simpl.
        -- rewrite emit_nil. destruct raw; reflexivity.
        -- destruct (py_eq (created_by_ref raw) (JStr "")); simpl.
           ++ rewrite emit_nil. destruct raw; reflexivity.
           ++ destruct raw; reflexivity.
      * rewrite emit_nil. destruct raw; reflexivity.
Qed.

(** The loop over a run of good objects, whatever follows. *)
Lemma aggregate_app_good pre rest raw w :
  forallb good pre = true ->
  aggregate (pre ++ rest) raw w
  = aggregate rest (summary pre raw)
      (emit (conflicts (created_by_ref raw) (authors pre)) w).
Proof.
  revert raw w; induction pre as [|o pre IH]; intros raw w H; simpl.
  - now rewrite summary_nil, emit_nil.
  - simpl in H. apply andb_true_iff in H as [Ho Hpre].
    unfold bind at 1. rewrite (visit_good _ _ _ Ho).
    rewrite (IH _ _ Hpre), emit_emit.
    rewrite <- summary_cons, (conflicts_cons o pre).
    reflexivity.
Qed.

Lemma aggregate_good objs raw w :
  forallb good objs = true ->
  aggregate objs raw w
  = (Ret (Some (summary objs raw)),
     emit (conflicts (created_by_ref raw) (authors objs)) w).
Proof.
  intros H. rewrite <- (app_nil_r objs) at 1.
  rewrite (aggregate_app_good _ _ _ _ H). reflexivity.
Qed.

(** The loop body on a content object that lacks [id] or [modified]. *)
Lemma visit_missing obj raw w :
  typed obj = true -> is_content obj = true ->
  has_field "id" obj && has_field "modified" obj = false ->
  visit obj raw w
  = (Ret None, emit [ErrorMissingField obj (KeyError (missing_key obj))] w).
Proof.
  unfold typed, is_content, has_type, has_field, missing_key.
  destruct obj as [| | | | |d]; simpl; try discriminate.
  destruct (dict_get "type" d) as [t|] eqn:Ht; simpl; try discriminate.
  intros _ Hmd Hf.
  unfold visit, bind, lift; simpl. rewrite Ht; simpl.
  apply negb_true_iff in Hmd. rewrite Hmd.
  unfold content_entry, has_field; simpl.
  destruct (dict_get "id" d) as [i|]; simpl in *.
  - destruct (dict_get "modified" d) as [m|]; simpl in *; try discriminate.
    reflexivity.
  - reflexivity.
Qed.

(** Whenever the loop body lets the loop go on, the object was good. *)
Lemma visit_some_good obj raw w r w' :
  visit obj raw w = (Ret (Some r), w') -> good obj = true.
Proof.
  unfold visit, bind, lift, good, typed, is_content, has_type, has_field,
    refs_iterable.
  destruct obj as [| | | | |d]; simpl; try discriminate.
  destruct (dict_get "type" d) as [t|] eqn:Ht; simpl; try discriminate.
  destruct (py_eq t (JStr "marking-definition")); simpl; auto.
  unfold content_entry; simpl.
  destruct (dict_get "id" d) as [i|]; simpl; try discriminate.
  destruct (dict_get "modified" d) as [m|]; simpl; try discriminate.
  destruct (dict_get "object_marking_refs" d) as [v|]; simpl; auto.
  destruct v; simpl; auto; discriminate.
Qed.

Lemma aggregate_some_good objs raw w r w' :
  aggregate objs raw w = (Ret (Some r), w') -> forallb good objs = true.
Proof.
  revert raw w; induction objs as [|o objs IH]; intros raw w H; simpl; auto.
  simpl in H. unfold bind in H.
  destruct (visit o raw w) as [[[raw1|] | e] w1] eqn:Hv; try discriminate.
  rewrite (visit_some_good _ _ _ _ _ Hv). simpl. eauto.
Qed.

(** ** The store *)

Lemma length_list_set {A} i (x : A) l : List.length (list_set i x l) = List.length l.
Proof.
  revert i; induction l as [|y l IH]; intros [|i]; simpl; auto.
Qed.

Lemma nth_error_list_set_ne {A} i j (x : A) l :
  i <> j -> nth_error (list_set i x l) j = nth_error l j.
Proof.
  revert i j; induction l as [|y l IH]; intros [|i] [|j] H; simpl;
    try congruence; auto.
Qed.

Lemma list_set_last {A} (x y : A) l :
  list_set (List.length l) x (l ++ [y]) = l ++ [x].
Proof. induction l as [|z l IH]; simpl; congruence. Qed.

Lemma nth_error_last {A} (x : A) l : nth_error (l ++ [x]) (List.length l) = Some x.
Proof. rewrite nth_error_app2, Nat.sub_diag; auto. Qed.

Lemma dict_get_set k v d : dict_get k (dict_set k v d) = Some v.
Proof.
  induction d as [|[k' v'] d IH]; simpl.
  - now rewrite String.eqb_refl.
  - destruct (String.eqb k k') eqn:Hk; simpl; rewrite Hk; auto.
Qed.

Lemma objects_of_eq l v w :
  nth_error (heap w) l = Some v ->
  objects_of l w
  = (match getitem v "objects" with
     | Ret x => py_iter x
     | Raise e => Raise e
     end, w).
Proof.
  intros H. unfold objects_of, bind, deref, lift. rewrite H.
  destruct (getitem v "objects"); reflexivity.
Qed.

(** ** Lines 59-101 *)

Lemma build_good E wl name version description w d objs :
  nth_error (heap w) wl = Some (JDict d) ->
  dict_get "objects" d = Some (JList objs) ->
  forallb good objs = true ->
  build E wl name version description w
  = (Ret (VRef wl),
     {| heap :=
          list_set wl
            (with_collection
               (summary objs (new_collection E name version description))
               objs d)
            (heap w);
        stdout := stdout w ++ conflicts (JStr "") (authors objs) |}).
Proof.
  intros Hw Ho Hg. unfold build, bind at 1.
  rewrite (objects_of_eq _ _ _ Hw). simpl. rewrite Ho. simpl.
  unfold bind at 1. rewrite (aggregate_good _ _ _ Hg).
  unfold insert_front, bind, deref, lift, store, ret, emit; simpl.
  rewrite Hw. simpl. rewrite Ho. reflexivity.
Qed.

(** A bundle comes out of lines 59-101 only at the working location, only
    when [objects] is a list, and only over good objects. *)
Lemma build_ref_inv E wl name version description w r w' :
  build E wl name version description w = (Ret (VRef r), w') ->
  r = wl /\
  exists d objs,
    nth_error (heap w) wl = Some (JDict d) /\
    dict_get "objects" d = Some (JList objs) /\
    forallb good objs = true.
Proof.
  unfold build, bind at 1, objects_of, bind, deref, lift.
  destruct (nth_error (heap w) wl) as [v|] eqn:Hw; try discriminate.
  destruct (getitem v "objects") as [x|e] eqn:Hx; try discriminate.
  destruct (py_iter x) as [objs|e] eqn:Hit; try discriminate.
  destruct (aggregate objs (new_collection E name version description) w)
    as [[[raw|]|e] w1] eqn:Hagg; try discriminate.
  pose proof (aggregate_some_good _ _ _ _ _ Hagg) as Hg.
  rewrite (aggregate_good _ _ _ Hg) in Hagg. inversion Hagg; subst; clear Hagg.
  unfold insert_front, bind, deref, lift, store, ret, raise, emit; simpl.
  rewrite Hw, Hx.
  destruct x as [| | | |l|]; try discriminate;
    destruct v as [| | | | |d]; try discriminate.
  intros H. inversion H; subst; clear H. split; auto.
  exists d, objs. simpl in Hit. inversion Hit; subst.
  unfold getitem in Hx. destruct (dict_get "objects" d); inversion Hx; subst.
  auto.
Qed.

(** ** What a computation leaves alone *)

Lemma firstn_list_set {A} n i (x : A) l :
  n <= i -> firstn n (list_set i x l) = firstn n l.
Proof.
  revert n i; induction l as [|y l IH]; intros [|n] [|i] H; simpl;
    try lia; auto.
  f_equal. apply IH. lia.
Qed.

Lemma keeps_ret n {A} (a : A) : keeps n (ret a).
Proof. intros w; auto. Qed.

Lemma keeps_raise n {A} e : keeps n (@raise A e).
Proof. intros w; auto. Qed.

Lemma keeps_lift n {A} (r : result A) : keeps n (lift r).
Proof. intros w; auto. Qed.

Lemma keeps_print n d : keeps n (print d).
Proof. intros w; auto. Qed.

Lemma keeps_deref n l : keeps n (deref l).
Proof. intros w; unfold deref. destruct (nth_error (heap w) l); auto. Qed.

Lemma keeps_store n l v : n <= l -> keeps n (store l v).
Proof.
  intros H w; unfold store; simpl.
  now rewrite length_list_set, firstn_list_set.
Qed.

Lemma keeps_bind n {A B} (m : M A) (k : A -> M B) :
  keeps n m -> (forall a, keeps n (k a)) -> keeps n (bind m k).
Proof.
  intros Hm Hk w. unfold bind. specialize (Hm w).
  destruct (m w) as [[a|e] w1]; simpl in *; auto.
  destruct (Hk a w1) as [H1 H2]. destruct Hm as [H3 H4]. split; congruence.
Qed.

Ltac keeps_step :=
  first
    [ apply keeps_ret | apply keeps_raise | apply keeps_lift
    | apply keeps_print | apply keeps_deref
    | apply keeps_store; assumption
    | apply keeps_bind; [ | intros ? ]
    | match goal with
      | |- keeps _ (if ?b then _ else _) => destruct b
      | |- keeps _ (match ?x with _ => _ end) => destruct x
      end ].

Lemma keeps_visit n obj raw : keeps n (visit obj raw).
Proof. unfold visit. repeat keeps_step. Qed.

Lemma keeps_aggregate n objs raw : keeps n (aggregate objs raw).
Proof.
  revert raw; induction objs as [|o objs IH]; intros raw; simpl.
  - apply keeps_ret.
  - apply keeps_bind; [apply keeps_visit|].
    intros [raw'|]; [apply IH | apply keeps_ret].
Qed.

Lemma keeps_objects_of n l : keeps n (objects_of l).
Proof. unfold objects_of. repeat keeps_step. Qed.

Lemma keeps_build n E wl name version description :
  n <= wl -> keeps n (build E wl name version description).
Proof.
  intros H. unfold build.
  apply keeps_bind; [apply keeps_objects_of|]. intros objs.
  apply keeps_bind; [apply keeps_aggregate|]. intros [raw|].
  - unfold insert_front. repeat keeps_step.
  - apply keeps_ret.
Qed.

Lemma keeps_convert n E b wl name version description :
  n <= wl -> keeps n (convert E b wl name version description).
Proof.
  intros H. unfold convert.
  do 2 (apply keeps_bind; [keeps_step|intros ?]).
  apply keeps_bind.
  - unfold upgrade. repeat keeps_step.
  - intros c. destruct c; simpl; [|apply keeps_ret].
    apply keeps_bind; [unfold check_spec_version; repeat keeps_step|].
    intros _. now apply keeps_build.
Qed.

(** ** Lines 29-32 *)

Lemma stix_to_collection_scan E b name version description w bj :
  nth_error (heap w) b = Some bj ->
  stix_to_collection E b name version description w
  = match objects bj with
    | Raise e => (Raise e, copied bj w)
    | Ret objs =>
        match contains_collection objs with
        | Raise e => (Raise e, copied bj w)
        | Ret true => (Ret (VRef b), copied bj w)
        | Ret false =>
            convert E b (List.length (heap w)) name version description
              (copied bj w)
        end
    end.
Proof.
  intros Hb. unfold stix_to_collection, deepcopy, bind at 1 2, deref.
  rewrite Hb. unfold bind at 1.
  rewrite (objects_of_eq _ bj) by (simpl; apply nth_error_last).
  fold (objects bj). fold (copied bj w).
  destruct (objects bj) as [objs|e]; auto.
  unfold bind, lift.
  destruct (contains_collection objs) as [[|]|e]; auto.
Qed.

Lemma stix_to_collection_dangling E b name version description w :
  nth_error (heap w) b = None ->
  stix_to_collection E b name version description w = (Raise DanglingRef, w).
Proof.
  intros Hb. unfold stix_to_collection, deepcopy, bind at 1 2, deref.
  now rewrite Hb.
Qed.

(** ** Lines 33-58 *)

Lemma bind_ret_eq {A B} (m : M A) (k : A -> M B) w a w1 :
  m w = (Ret a, w1) -> bind m k w = k a w1.
Proof. intros H. unfold bind. now rewrite H. Qed.

Lemma bind_raise_eq {A B} (m : M A) (k : A -> M B) w e w1 :
  m w = (Raise e, w1) -> bind m k w = (Raise e, w1).
Proof. intros H. unfold bind. now rewrite H. Qed.

Lemma deref_eq l v w : nth_error (heap w) l = Some v -> deref l w = (Ret v, w).
Proof. intros H. unfold deref. now rewrite H. Qed.

Lemma get_spec_version d :
  get_method (JDict d) "spec_version" (JStr "") = Ret (spec_version_of d).
Proof.
  unfold get_method, spec_version_of.
  now destruct (dict_get "spec_version" d).
Qed.

Lemma check_spec_version_eq b wl w d :
  nth_error (heap w) b = Some (JDict d) ->
  nth_error (heap w) wl = Some (JDict d) ->
  check_spec_version b wl w = (Ret tt, emit (version_warning d) w).
Proof.
  intros Hb Hw. unfold check_spec_version.
  rewrite (bind_ret_eq _ _ _ _ _ (deref_eq _ _ _ Hb)).
  rewrite get_spec_version.
  rewrite (bind_ret_eq _ _ w (spec_version_of d) w) by reflexivity.
  unfold version_warning.
  destruct (negb (py_eq (spec_version_of d) (JStr "2.1"))
            && negb (py_eq (spec_version_of d) (JStr "2.0"))).
  - rewrite (bind_ret_eq _ _ _ _ _ (deref_eq _ _ _ Hw)).
    unfold bind, lift, get_method, print, emit.
    now destruct (dict_get "spec_version" d).
  - unfold ret. now rewrite emit_nil.
Qed.

Lemma check_spec_version_quiet b wl w d :
  nth_error (heap w) b = Some (JDict d) ->
  py_eq (spec_version_of d) (JStr "2.0") = true ->
  check_spec_version b wl w = (Ret tt, w).
Proof.
  intros Hb H20. unfold check_spec_version.
  rewrite (bind_ret_eq _ _ _ _ _ (deref_eq _ _ _ Hb)).
  rewrite get_spec_version.
  rewrite (bind_ret_eq _ _ w (spec_version_of d) w) by reflexivity.
  now rewrite H20, andb_false_r.
Qed.

Lemma upgrade_eq E wl w wb :
  nth_error (heap w) wl = Some wb ->
  upgrade E wl w
  = match step_bundle E wb with
    | Ret wb' =>
        (Ret true,
         {| heap := list_set wl wb' (heap w);
            stdout := stdout w ++ [NoteUpgrading; NoteUpgraded] |})
    | Raise e =>
        (Raise TypeError, emit [NoteUpgrading; ErrorUpgrade e] w)
    end.
Proof.
  intros Hw. unfold upgrade.
  rewrite (bind_ret_eq _ _ w tt (emit [NoteUpgrading] w)) by reflexivity.
  rewrite (bind_ret_eq _ _ _ wb (emit [NoteUpgrading] w))
    by (apply deref_eq; exact Hw).
  destruct (step_bundle E wb) as [wb'|e].
  - unfold bind, store, print, ret, emit; simpl.
    now rewrite <- app_assoc.
  - unfold bind, print, lift, emit; simpl.
    now rewrite <- app_assoc.
Qed.

Lemma convert_eq E b wl name version description w d :
  nth_error (heap w) b = Some (JDict d) ->
  nth_error (heap w) wl = Some (JDict d) ->
  b <> wl ->
  convert E b wl name version description w
  = if py_eq (spec_version_of d) (JStr "2.0")
    then match step_bundle E (JDict d) with
         | Ret wb' =>
             build E wl name version description
               {| heap := list_set wl wb' (heap w);
                  stdout := stdout w ++ [NoteUpgrading; NoteUpgraded] |}
         | Raise e =>
             (Raise TypeError, emit [NoteUpgrading; ErrorUpgrade e] w)
         end
    else build E wl name version description (emit (version_warning d) w).
Proof.
  intros Hb Hw Hne. unfold convert.
  rewrite (bind_ret_eq _ _ _ _ _ (deref_eq _ _ _ Hb)).
  rewrite get_spec_version.
  rewrite (bind_ret_eq _ _ w (spec_version_of d) w) by reflexivity.
  destruct (py_eq (spec_version_of d) (JStr "2.0")) eqn:H20.
  - pose proof (upgrade_eq E _ _ _ Hw) as Hu.
    destruct (step_bundle E (JDict d)) as [wb'|e].
    + rewrite (bind_ret_eq _ _ _ _ _ Hu). simpl.
      erewrite bind_ret_eq; [reflexivity|].
      apply (check_spec_version_quiet _ _ _ d); auto.
      simpl. now rewrite nth_error_list_set_ne.
    + now rewrite (bind_raise_eq _ _ _ _ _ Hu).
  - rewrite (bind_ret_eq _ _ w true w) by reflexivity. simpl.
    now rewrite (bind_ret_eq _ _ _ _ _ (check_spec_version_eq _ _ _ _ Hb Hw)).
Qed.

(** ** The whole call *)

Lemma nth_error_copied_old bj w b v :
  nth_error (heap w) b = Some v -> nth_error (heap (copied bj w)) b = Some v.
Proof.
  intros H. simpl. rewrite nth_error_app1; auto.
  apply nth_error_Some. congruence.
Qed.

Lemma nth_error_old_ne_length {A} (l : list A) b v :
  nth_error l b = Some v -> b <> List.length l.
Proof.
  intros H Heq. subst. assert (nth_error l (List.length l) <> None) by congruence.
  apply nth_error_Some in H0. lia.
Qed.

Lemma stix_to_collection_builds E b name version description w d objs wd wobjs :
  nth_error (heap w) b = Some (JDict d) ->
  objects (JDict d) = Ret objs ->
  contains_collection objs = Ret false ->
  working_bundle_of E d = Ret (JDict wd) ->
  dict_get "objects" wd = Some (JList wobjs) ->
  forallb good wobjs = true ->
  stix_to_collection E b name version description w
  = (Ret (VRef (List.length (heap w))),
     converted E name version description d wd wobjs w).
Proof.
  intros Hb Hobjs Hscan Hwork Hwo Hgood.
  rewrite (stix_to_collection_scan _ _ _ _ _ _ _ Hb), Hobjs, Hscan.
  rewrite (convert_eq _ _ _ _ _ _ _ d).
  2:{ now apply nth_error_copied_old. }
  2:{ simpl. apply nth_error_last. }
  2:{ eapply nth_error_old_ne_length; eauto. }
  unfold working_bundle_of in Hwork. unfold converted, preamble.
  destruct (py_eq (spec_version_of d) (JStr "2.0")).
  - rewrite Hwork. simpl. rewrite list_set_last.
    rewrite (build_good _ _ _ _ _ _ wd wobjs); simpl; auto using nth_error_last.
    now rewrite list_set_last, <- app_assoc.
  - inversion Hwork; subst wd.
    rewrite (build_good _ _ _ _ _ _ d wobjs); simpl; auto using nth_error_last.
    now rewrite list_set_last, <- app_assoc.
Qed.

(** Every way the call can hand back a bundle. *)
Lemma stix_to_collection_ref_inv E b name version description w r w' :
  stix_to_collection E b name version description w = (Ret (VRef r), w') ->
  exists d objs,
    nth_error (heap w) b = Some (JDict d) /\
    objects (JDict d) = Ret objs /\
    ((r = b /\ contains_collection objs = Ret true /\
      w' = copied (JDict d) w)
     \/
     (r = List.length (heap w) /\ contains_collection objs = Ret false /\
      exists wd wobjs,
        working_bundle_of E d = Ret (JDict wd) /\
        dict_get "objects" wd = Some (JList wobjs) /\
        forallb good wobjs = true /\
        w' = converted E name version description d wd wobjs w)).
Proof.
  intros H.
  destruct (nth_error (heap w) b) as [bj|] eqn:Hb.
  2:{ rewrite stix_to_collection_dangling in H by auto. discriminate. }
  rewrite (stix_to_collection_scan _ _ _ _ _ _ _ Hb) in H.
  destruct (objects bj) as [objs|e] eqn:Hobjs; try discriminate.
  assert (exists d, bj = JDict d) as [d ->].
  { destruct bj; try discriminate. eauto. }
  exists d, objs. split; auto. split; auto.
  destruct (contains_collection objs) as [[|]|e] eqn:Hscan; try discriminate.
  - left. inversion H; subst. auto.
  - right.
    pose proof H as H'.
    rewrite (convert_eq _ _ _ _ _ _ _ d) in H'.
    2:{ now apply nth_error_copied_old. }
    2:{ simpl. apply nth_error_last. }
    2:{ eapply nth_error_old_ne_length; eauto. }
    assert (exists wd wobjs,
               working_bundle_of E d = Ret (JDict wd) /\
               dict_get "objects" wd = Some (JList wobjs) /\
               forallb good wobjs = true /\ r = List.length (heap w))
      as (wd & wobjs & Hwork & Hwo & Hgood & Hr).
    { unfold working_bundle_of.
      destruct (py_eq (spec_version_of d) (JStr "2.0")).
      - destruct (step_bundle E (JDict d)) as [wb'|e]; try discriminate.
        apply build_ref_inv in H' as (Hr & wd & wobjs & Hw & Hwo & Hgood).
        simpl in Hw. rewrite list_set_last, nth_error_last in Hw.
        inversion Hw; subst. eauto 10.
      - apply build_ref_inv in H' as (Hr & wd & wobjs & Hw & Hwo & Hgood).
        simpl in Hw. rewrite nth_error_last in Hw.
        inversion Hw; subst. eauto 10. }
    split; auto. split; auto. exists wd, wobjs. repeat split; auto.
    pose proof (stix_to_collection_builds E b name version description w
                  d objs wd wobjs Hb Hobjs Hscan Hwork Hwo Hgood) as Hrun.
    rewrite (stix_to_collection_scan _ _ _ _ _ _ _ Hb), Hobjs, Hscan in Hrun.
    congruence.
Qed.

(** ** The caller's bundle *)

(** C2. Whatever the arguments and whatever the outcome (a new bundle, the
    caller's bundle, [None] or an exception), the call leaves every object
    the caller had as it was, the bundle passed in among them; it
    allocates at most one object, the deep copy, and a reference it
    returns is either the caller's bundle or that copy. *)
Theorem original_bundle_unchanged E bundle name version description w :
  let run := stix_to_collection E bundle name version description w in
  firstn (List.length (heap w)) (heap (snd run)) = heap w /\
  List.length (heap (snd run)) <= S (List.length (heap w)) /\
  nth_error (heap (snd run)) bundle = nth_error (heap w) bundle /\
  match fst run with
  | Ret (VRef r) => r = bundle \/ r = List.length (heap w)
  | _ => True
  end.
Proof.
  intros run.
  assert (Hres : match fst run with
                 | Ret (VRef r) => r = bundle \/ r = List.length (heap w)
                 | _ => True
                 end).
  { destruct run as [[[|r]|e] w'] eqn:Hrun; simpl; auto.
    apply stix_to_collection_ref_inv in Hrun
      as (d & objs & _ & _ & [(-> & _) | (-> & _)]); auto. }
  destruct (nth_error (heap w) bundle) as [bj|] eqn:Hb.
  - assert (Hframe :
      List.length (heap (snd run)) = S (List.length (heap w)) /\
      firstn (List.length (heap w)) (heap (snd run)) = heap w).
    { subst run. rewrite (stix_to_collection_scan _ _ _ _ _ _ _ Hb).
      assert (Hcopy :
        List.length (heap (copied bj w)) = S (List.length (heap w)) /\
        firstn (List.length (heap w)) (heap (copied bj w)) = heap w).
      { simpl. rewrite length_app, firstn_app, Nat.sub_diag, firstn_all.
        simpl. rewrite app_nil_r. split; auto. lia. }
      destruct (objects bj) as [objs|e]; auto.
      destruct (contains_collection objs) as [[|]|e]; auto.
      destruct (keeps_convert (List.length (heap w)) E bundle
                  (List.length (heap w)) name version description
                  (le_n _) (copied bj w)) as [Hl Hf].
      destruct Hcopy as [Hl' Hf']. split; congruence. }
    destruct Hframe as [Hl Hf]. repeat split; auto; try lia.
    assert (bundle < List.length (heap w))
      by (apply nth_error_Some; congruence).
    transitivity
      (nth_error (firstn (List.length (heap w)) (heap (snd run))) bundle).
    + rewrite nth_error_firstn.
      destruct (Nat.ltb_spec bundle (List.length (heap w))); auto; lia.
    + now rewrite Hf.
  - subst run. rewrite stix_to_collection_dangling by auto. simpl.
    rewrite firstn_all. repeat split; auto.
Qed.

(** ** The scan for an existing collection *)

Lemma contains_collection_passes pre rest :
  forallb passes_scan pre = true ->
  contains_collection (pre ++ rest) = contains_collection rest.
Proof.
  induction pre as [|o pre IH]; simpl; auto.
  intros H. apply andb_true_iff in H as [Ho Hpre].
  unfold passes_scan, typed, has_type, has_field in Ho.
  destruct o as [| | | | |d]; simpl in *; try discriminate.
  destruct (dict_get "type" d) as [t|]; simpl in *; try discriminate.
  apply negb_true_iff in Ho. rewrite Ho. auto.
Qed.

Lemma contains_collection_found c rest :
  has_type "x-mitre-collection" c = true ->
  contains_collection (c :: rest) = Ret true.
Proof.
  unfold has_type. destruct c as [| | | | |d]; simpl; try discriminate.
  destruct (dict_get "type" d) as [t|]; simpl; try discriminate.
  now intros ->.
Qed.

Lemma contains_collection_false objs :
  contains_collection objs = Ret false <-> forallb passes_scan objs = true.
Proof.
  split.
  - induction objs as [|o objs IH]; simpl; auto.
    unfold passes_scan at 1, typed, has_type, has_field.
    destruct o as [| | | | |d]; simpl; try discriminate.
    destruct (dict_get "type" d) as [t|]; simpl; try discriminate.
    destruct (py_eq t (JStr "x-mitre-collection")); simpl; auto; discriminate.
  - intros H. rewrite <- (app_nil_r objs).
    now rewrite contains_collection_passes.
Qed.

(** A bundle that already holds a collection comes back as it is: the
    same object, nothing printed, nothing but the copy allocated. *)
Lemma stix_to_collection_already E b name version description w d pre c post :
  nth_error (heap w) b = Some (JDict d) ->
  dict_get "objects" d = Some (JList (pre ++ c :: post)) ->
  forallb passes_scan pre = true ->
  has_type "x-mitre-collection" c = true ->
  stix_to_collection E b name version description w
  = (Ret (VRef b), copied (JDict d) w).
Proof.
  intros Hb Ho Hpre Hc.
  rewrite (stix_to_collection_scan _ _ _ _ _ _ _ Hb).
  unfold objects; simpl. rewrite Ho. simpl.
  now rewrite (contains_collection_passes _ _ Hpre),
    (contains_collection_found _ _ Hc).
Qed.

(** C3 (amended). When the bundle holds an object of type
    [x-mitre-collection] and every object before the first such object is
    a mapping with a [type], the call returns the caller's own bundle,
    untouched, before anything is printed or upgraded: the outcome is the
    same under every environment.  And whenever a call has returned a
    bundle, a second call on that bundle returns it again, unchanged. *)
Theorem existing_collection_short_circuit :
  (forall E b name version description w d pre c post,
      nth_error (heap w) b = Some (JDict d) ->
      dict_get "objects" d = Some (JList (pre ++ c :: post)) ->
      forallb passes_scan pre = true ->
      has_type "x-mitre-collection" c = true ->
      stix_to_collection E b name version description w
      = (Ret (VRef b),
         {| heap := heap w ++ [JDict d]; stdout := stdout w |}) /\
      nth_error (heap w ++ [JDict d]) b = Some (JDict d))
  /\
  (forall E b name version description w r w',
      stix_to_collection E b name version description w = (Ret (VRef r), w') ->
      forall E' name' version' description',
      exists out,
        nth_error (heap w') r = Some out /\
        stix_to_collection E' r name' version' description' w'
        = (Ret (VRef r), {| heap := heap w' ++ [out]; stdout := stdout w' |}) /\
        nth_error (heap w' ++ [out]) r = Some out).
Proof.
  split.
  - intros E b name version description w d pre c post Hb Ho Hpre Hc. split.
    + apply (stix_to_collection_already _ _ _ _ _ _ _ _ _ _ Hb Ho Hpre Hc).
    + apply (nth_error_copied_old (JDict d) w), Hb.
  - intros E b name version description w r w' Hrun E' name' version' description'.
    assert (exists out,
               nth_error (heap w') r = Some out /\
               stix_to_collection E' r name' version' description' w'
               = (Ret (VRef r), copied out w')) as (out & Hout & Hagain).
    { apply stix_to_collection_ref_inv in Hrun
        as (d & objs & Hb & Hobjs & [(-> & Hscan & ->) | (-> & Hscan & Hnew)]).
      - exists (JDict d). split.
        + apply nth_error_copied_old, Hb.
        + rewrite (stix_to_collection_scan _ _ _ _ _ _ (JDict d))
            by (apply nth_error_copied_old, Hb).
          now rewrite Hobjs, Hscan.
      - destruct Hnew as (wd & wobjs & _ & Hwo & _ & ->).
        eexists. split.
        + unfold converted; simpl. apply nth_error_last.
        + unfold converted at 1 2.
          match goal with
          | |- stix_to_collection _ _ _ _ _ ?w0 = _ =>
              rewrite (stix_to_collection_scan _ _ _ _ _ w0 _
                         (nth_error_last _ _))
          end.
          unfold objects, with_collection; simpl.
          rewrite dict_get_set. simpl. reflexivity. }
    exists out. repeat split; auto.
    apply (nth_error_copied_old out w'), Hout.
Qed.

Lemma existing_collection_short_circuit_witness :
  stix_to_collection host_failing 0 (JStr "n") (JStr "1") JNull
    (world_of (bundle_of "2.0"
                 [pattern_a; to_dict (new_collection host_failing JNull JNull JNull);
                  JDict []]))
  = (Ret (VRef 0),
     {| heap :=
          heap (world_of (bundle_of "2.0"
                 [pattern_a; to_dict (new_collection host_failing JNull JNull JNull);
                  JDict []]))
          ++ [JDict (bundle_of "2.0"
                 [pattern_a; to_dict (new_collection host_failing JNull JNull JNull);
                  JDict []])];
        stdout := [] |})
  /\
  exists out,
    nth_error
      (heap (snd (stix_to_collection host_stepping 0 (JStr "n") (JStr "1") JNull
                    (world_of (bundle_of "2.1" sample_objects))))) 1
    = Some out /\
    fst (stix_to_collection host_failing 1 JNull JNull JNull
           (snd (stix_to_collection host_stepping 0 (JStr "n") (JStr "1") JNull
                   (world_of (bundle_of "2.1" sample_objects)))))
    = Ret (VRef 1).
Proof.
  split.
  - refine (proj1 (proj1 existing_collection_short_circuit host_failing 0
                     (JStr "n") (JStr "1") JNull _ _ [pattern_a] _ [JDict []]
                     _ _ _ _)); reflexivity.
  - set (first := stix_to_collection host_stepping 0 (JStr "n") (JStr "1")
                    JNull (world_of (bundle_of "2.1" sample_objects))).
    assert (Hfirst : first = (Ret (VRef 1), snd first)) by reflexivity.
    destruct (proj2 existing_collection_short_circuit host_stepping 0
                (JStr "n") (JStr "1") JNull
                (world_of (bundle_of "2.1" sample_objects)) 1 (snd first)
                Hfirst host_failing JNull JNull JNull)
      as (out & Hout & Hrun & _).
    exists out. split; [exact Hout|]. now rewrite Hrun.
Defined.

(** The bundle [[{id, modified}, collection]] holds a collection object, and
    yet the call returns nothing: the scan stops at the first object, which
    has no [type], with [KeyError]. *)
Lemma existing_collection_counterexample :
  let objs := [JDict [("id", JStr "a"); ("modified", JStr "t1")];
               to_dict (new_collection host_stepping JNull JNull JNull)] in
  existsb (has_type "x-mitre-collection") objs = true /\
  stix_to_collection host_stepping 0 (JStr "n") (JStr "1") JNull
    (world_of (bundle_of "2.1" objs))
  = (Raise (KeyError "type"),
     {| heap := [JDict (bundle_of "2.1" objs); JDict (bundle_of "2.1" objs)];
        stdout := [] |}).
Proof. split; reflexivity. Qed.

(** ** Objects without a [type] *)

Lemma contains_collection_untyped o rest :
  dict_get "type" o = None ->
  contains_collection (JDict o :: rest) = Raise (KeyError "type").
Proof. intros H. simpl. now rewrite H. Qed.

(** C10 (amended). When an object is a mapping without [type] and every
    object before it is a mapping whose [type] is not
    [x-mitre-collection], the call returns neither a bundle nor [None]:
    the lookup of line 31 raises [KeyError("type")], nothing is printed,
    and only the copy has been allocated.  The lookup of line 77 is as
    unguarded: the loop body raises the same [KeyError] on such an object.
    A missing [id] or [modified] on a content object is what the loop body
    turns into [None]. *)
Theorem missing_type_raises :
  (forall E b name version description w d pre o post,
      nth_error (heap w) b = Some (JDict d) ->
      dict_get "objects" d = Some (JList (pre ++ JDict o :: post)) ->
      forallb passes_scan pre = true ->
      dict_get "type" o = None ->
      stix_to_collection E b name version description w
      = (Raise (KeyError "type"),
         {| heap := heap w ++ [JDict d]; stdout := stdout w |}))
  /\
  (forall o raw w,
      dict_get "type" o = None ->
      visit (JDict o) raw w = (Raise (KeyError "type"), w))
  /\
  (forall obj raw w,
      typed obj = true -> is_content obj = true ->
      has_field "id" obj && has_field "modified" obj = false ->
      fst (visit obj raw w) = Ret None).
Proof.
  split; [|split].
  - intros E b name version description w d pre o post Hb Ho Hpre Ht.
    rewrite (stix_to_collection_scan _ _ _ _ _ _ _ Hb).
    unfold objects; simpl. rewrite Ho. simpl.
    now rewrite (contains_collection_passes _ _ Hpre),
      (contains_collection_untyped _ _ Ht).
  - intros o raw w Ht. unfold visit, bind, lift; simpl. now rewrite Ht.
  - intros obj raw w Ht Hc Hf. now rewrite visit_missing.
Qed.

Lemma missing_type_raises_witness :
  stix_to_collection host_stepping 0 (JStr "n") (JStr "1") JNull
    (world_of (bundle_of "2.1" [pattern_a; JDict [("id", JStr "z")]; tool_c]))
  = (Raise (KeyError "type"),
     {| heap :=
          heap (world_of (bundle_of "2.1"
                  [pattern_a; JDict [("id", JStr "z")]; tool_c]))
          ++ [JDict (bundle_of "2.1"
                  [pattern_a; JDict [("id", JStr "z")]; tool_c])];
        stdout := [] |})
  /\
  visit (JDict [("id", JStr "z")])
    (new_collection host_stepping JNull JNull JNull) (world_of [])
  = (Raise (KeyError "type"), world_of [])
  /\
  fst (visit (JDict [("type", JStr "tool"); ("id", JStr "z")])
         (new_collection host_stepping JNull JNull JNull) (world_of []))
  = Ret None.
Proof.
  split; [|split].
  - refine (proj1 missing_type_raises host_stepping 0 (JStr "n") (JStr "1")
              JNull _ _ [pattern_a] _ [tool_c] _ _ _ _); reflexivity.
  - refine (proj1 (proj2 missing_type_raises) _ _ _ _); reflexivity.
  - refine (proj2 (proj2 missing_type_raises) _ _ _ _ _ _); reflexivity.
Defined.

(** The second object of [[collection, {id}]] has no [type], and the call
    returns the caller's bundle all the same: line 32 leaves the scan at
    the first object. *)
Lemma missing_type_counterexample :
  let objs := [to_dict (new_collection host_stepping JNull JNull JNull);
               JDict [("id", JStr "z")]] in
  existsb (fun o => negb (typed o)) objs = true /\
  stix_to_collection host_stepping 0 (JStr "n") (JStr "1") JNull
    (world_of (bundle_of "2.1" objs))
  = (Ret (VRef 0),
     {| heap := [JDict (bundle_of "2.1" objs); JDict (bundle_of "2.1" objs)];
        stdout := [] |}).
Proof. split; reflexivity. Qed.

(** ** Reaching the aggregation loop *)

Lemma stix_to_collection_reaches_build
    E b name version description w d objs wd :
  nth_error (heap w) b = Some (JDict d) ->
  objects (JDict d) = Ret objs ->
  contains_collection objs = Ret false ->
  working_bundle_of E d = Ret wd ->
  stix_to_collection E b name version description w
  = build E (List.length (heap w)) name version description
      {| heap := heap w ++ [wd]; stdout := stdout w ++ preamble d |}.
Proof.
  intros Hb Hobjs Hscan Hwork.
  rewrite (stix_to_collection_scan _ _ _ _ _ _ _ Hb), Hobjs, Hscan.
  rewrite (convert_eq _ _ _ _ _ _ _ d).
  2:{ now apply nth_error_copied_old. }
  2:{ simpl. apply nth_error_last. }
  2:{ eapply nth_error_old_ne_length; eauto. }
  unfold working_bundle_of in Hwork. unfold preamble.
  destruct (py_eq (spec_version_of d) (JStr "2.0")).
  - rewrite Hwork. simpl. now rewrite list_set_last.
  - inversion Hwork; subst wd. reflexivity.
Qed.

Lemma build_missing E wl name version description w wd pre o post :
  nth_error (heap w) wl = Some (JDict wd) ->
  dict_get "objects" wd = Some (JList (pre ++ o :: post)) ->
  forallb good pre = true ->
  typed o = true -> is_content o = true ->
  has_field "id" o && has_field "modified" o = false ->
  build E wl name version description w
  = (Ret VNone,
     emit (conflicts (JStr "") (authors pre)
           ++ [ErrorMissingField o (KeyError (missing_key o))]) w).
Proof.
  intros Hw Ho Hpre Ht Hc Hf. unfold build, bind at 1.
  rewrite (objects_of_eq _ _ _ Hw). simpl. rewrite Ho. simpl.
  unfold bind at 1. rewrite (aggregate_app_good _ _ _ _ Hpre).
  simpl. unfold bind at 1. rewrite (visit_missing _ _ _ Ht Hc Hf).
  unfold ret. now rewrite emit_emit.
Qed.

(** ** Malformed content objects *)

(** C4 (amended). Take a bundle whose objects are all mappings with a
    [type], none of them a collection, and let the working bundle be the
    copy, or what the upgrade returned for a [2.0] bundle.  When the first
    content object of the working bundle that lacks [id] or [modified]
    comes after good objects only, the call returns [None]; the last line
    printed names that object and the missing key ([id] when both are
    missing), and the store holds the working bundle without any
    collection object. *)
Theorem missing_field_aborts
    E b name version description w d objs wd pre o post :
  nth_error (heap w) b = Some (JDict d) ->
  dict_get "objects" d = Some (JList objs) ->
  forallb passes_scan objs = true ->
  working_bundle_of E d = Ret (JDict wd) ->
  dict_get "objects" wd = Some (JList (pre ++ o :: post)) ->
  forallb good pre = true ->
  typed o = true ->
  is_content o = true ->
  has_field "id" o && has_field "modified" o = false ->
  stix_to_collection E b name version description w
  = (Ret VNone,
     {| heap := heap w ++ [JDict wd];
        stdout := stdout w ++ preamble d
                  ++ conflicts (JStr "") (authors pre)
                  ++ [ErrorMissingField o (KeyError (missing_key o))] |}).
Proof.
  intros Hb Ho Hscan Hwork Hwo Hpre Ht Hc Hf.
  rewrite (stix_to_collection_reaches_build _ _ _ _ _ _ d objs (JDict wd));
    auto.
  2:{ unfold objects; simpl. now rewrite Ho. }
  2:{ now apply contains_collection_false. }
  rewrite (build_missing _ _ _ _ _ _ wd pre o post); auto.
  - unfold emit; simpl. now rewrite <- app_assoc.
  - simpl. apply nth_error_last.
Qed.

Lemma missing_field_aborts_witness :
  stix_to_collection host_stepping 0 (JStr "n") (JStr "1") JNull
    (world_of (bundle_of "2.0" [pattern_a; malware_b; tool_no_modified; tool_c]))
  = (Ret VNone,
     {| heap :=
          [JDict (bundle_of "2.0"
                    [pattern_a; malware_b; tool_no_modified; tool_c]);
           JDict (bundle_of "2.0"
                    [pattern_a; malware_b; tool_no_modified; tool_c])];
        stdout :=
          [NoteUpgrading; NoteUpgraded;
           NoteMultipleCreatedBy (JStr "x") (JStr "y");
           ErrorMissingField tool_no_modified (KeyError "modified")] |}).
Proof.
  exact (missing_field_aborts host_stepping 0 (JStr "n") (JStr "1") JNull
           (world_of (bundle_of "2.0"
                        [pattern_a; malware_b; tool_no_modified; tool_c]))
           (bundle_of "2.0" [pattern_a; malware_b; tool_no_modified; tool_c])
           [pattern_a; malware_b; tool_no_modified; tool_c]
           (bundle_of "2.0" [pattern_a; malware_b; tool_no_modified; tool_c])
           [pattern_a; malware_b] tool_no_modified [tool_c]
           eq_refl eq_refl eq_refl eq_refl eq_refl eq_refl eq_refl eq_refl
           eq_refl).
Defined.

(** The only object of the bundle is not a [marking-definition] and lacks
    [modified]; it lacks [type] as well, and the call raises [KeyError] at
    line 31 instead of returning [None]: nothing is printed. *)
Lemma missing_field_counterexample :
  let objs := [JDict [("id", JStr "a")]] in
  forallb (fun o => negb (has_type "x-mitre-collection" o)) objs = true /\
  existsb (fun o => is_content o
                    && negb (has_field "id" o && has_field "modified" o))
          objs = true /\
  stix_to_collection host_stepping 0 (JStr "n") (JStr "1") JNull
    (world_of (bundle_of "2.1" objs))
  = (Raise (KeyError "type"),
     {| heap := [JDict (bundle_of "2.1" objs); JDict (bundle_of "2.1" objs)];
        stdout := [] |}).
Proof. repeat split; reflexivity. Qed.

(** ** Completeness of [x_mitre_contents] *)

Lemma good_iff obj :
  good obj = true <->
  typed obj = true /\ identified obj = true /\ markable obj = true.
Proof.
  unfold good, identified, markable.
  destruct (typed obj), (is_content obj), (has_field "id" obj),
    (has_field "modified" obj), (refs_iterable obj); simpl; intuition congruence.
Qed.

Lemma forallb_good objs :
  forallb good objs = true <->
  forallb typed objs = true /\ forallb identified objs = true
  /\ forallb markable objs = true.
Proof.
  induction objs as [|o objs IH]; simpl; [intuition|].
  rewrite !andb_true_iff, IH, good_iff. intuition.
Qed.

Lemma entries_indexes objs :
  forallb identified objs = true ->
  Forall2 indexes (filter is_content objs) (entries objs).
Proof.
  unfold entries. induction objs as [|o objs IH]; simpl; [constructor|].
  intros H. apply andb_true_iff in H as [Ho Hobjs].
  unfold identified in Ho.
  destruct (is_content o) eqn:Hc; simpl in *; auto.
  unfold has_field, entry_of in *.
  destruct (field "id" o) as [i|] eqn:Hi; try discriminate.
  destruct (field "modified" o) as [m|] eqn:Hmod; try discriminate.
  simpl. constructor; auto. exists i, m. auto.
Qed.

Lemma working_bundle_of_other E d :
  py_eq (spec_version_of d) (JStr "2.0") = false ->
  working_bundle_of E d = Ret (JDict d).
Proof. unfold working_bundle_of. now intros ->. Qed.

(** C1 (amended). Take a bundle whose objects are all mappings with a
    [type], none of them a collection, and let the working bundle be the
    copy itself, or for a [2.0] bundle the one the upgrade returned.  When
    the objects of the working bundle are mappings with a [type], its
    content objects carry [id] and [modified], and their marking
    references can be looped over, the call returns a new bundle: the
    working bundle with the collection object as element 0 of [objects]
    and the other objects behind it in their order; the collection's
    [x_mitre_contents] lists one entry [{object_ref, object_modified}] per
    content object, in the same order. *)
Theorem contents_index_every_content_object
    E b name version description w d objs wd wobjs :
  nth_error (heap w) b = Some (JDict d) ->
  dict_get "objects" d = Some (JList objs) ->
  forallb passes_scan objs = true ->
  working_bundle_of E d = Ret (JDict wd) ->
  dict_get "objects" wd = Some (JList wobjs) ->
  forallb typed wobjs = true ->
  forallb identified wobjs = true ->
  forallb markable wobjs = true ->
  exists coll contents w',
    stix_to_collection E b name version description w
    = (Ret (VRef (List.length (heap w))), w') /\
    nth_error (heap w') (List.length (heap w))
    = Some (JDict (dict_set "objects" (JList (coll :: wobjs)) wd)) /\
    has_type "x-mitre-collection" coll = true /\
    field "x_mitre_contents" coll = Some (JList contents) /\
    Forall2 indexes (filter is_content wobjs) contents.
Proof.
  intros Hb Ho Hscan Hwork Hwo Ht Hid Hm.
  assert (Hgood : forallb good wobjs = true) by (apply forallb_good; auto).
  eexists _, _, _. split; [|split; [|split; [|split]]].
  - apply (stix_to_collection_builds _ _ _ _ _ _ d objs wd wobjs); auto.
    + unfold objects; simpl. now rewrite Ho.
    + now apply contains_collection_false.
  - unfold converted; simpl. apply nth_error_last.
  - reflexivity.
  - reflexivity.
  - simpl. now apply entries_indexes.
Qed.

Lemma contents_index_every_content_object_witness :
  exists coll contents w',
    stix_to_collection host_stepping 0 (JStr "n") (JStr "1") JNull
      (world_of (bundle_of "2.1" sample_objects))
    = (Ret (VRef 1), w') /\
    nth_error (heap w') 1
    = Some (JDict (dict_set "objects" (JList (coll :: sample_objects))
                     (bundle_of "2.1" sample_objects))) /\
    has_type "x-mitre-collection" coll = true /\
    field "x_mitre_contents" coll = Some (JList contents) /\
    Forall2 indexes (filter is_content sample_objects) contents.
Proof.
  exact (contents_index_every_content_object host_stepping 0
           (JStr "n") (JStr "1") JNull
           (world_of (bundle_of "2.1" sample_objects))
           (bundle_of "2.1" sample_objects) sample_objects
           (bundle_of "2.1" sample_objects) sample_objects
           eq_refl eq_refl eq_refl eq_refl eq_refl eq_refl eq_refl eq_refl).
Defined.

(** The only object of the bundle is not a collection and carries [id]
    and [modified], so the premises of the unamended property hold; it
    carries no [type], and the lookup of line 31 raises [KeyError]: no
    bundle comes back. *)
Lemma contents_index_counterexample :
  let objs := [JDict [("id", JStr "a"); ("modified", JStr "t1")]] in
  forallb (fun o => negb (has_type "x-mitre-collection" o)) objs = true /\
  forallb identified objs = true /\
  stix_to_collection host_stepping 0 (JStr "n") (JStr "1") JNull
    (world_of (bundle_of "2.1" objs))
  = (Raise (KeyError "type"),
     {| heap := [JDict (bundle_of "2.1" objs); JDict (bundle_of "2.1" objs)];
        stdout := [] |}).
Proof. repeat split; reflexivity. Qed.

(** Two more bundles that meet the premises of the unamended property
    and return nothing: a [2.0] bundle on a host where the upgrade raises,
    and marking references that are [null]. *)
Example contents_index_failed_upgrade :
  forallb passes_scan sample_objects = true /\
  forallb identified sample_objects = true /\
  fst (stix_to_collection host_failing 0 (JStr "n") (JStr "1") JNull
         (world_of (bundle_of "2.0" sample_objects)))
  = Raise TypeError.
Proof. repeat split; reflexivity. Qed.

Example contents_index_null_marking_refs :
  fst (stix_to_collection host_stepping 0 (JStr "n") (JStr "1") JNull
         (world_of (bundle_of "2.1"
            [JDict [("type", JStr "tool"); ("id", JStr "a");
                    ("modified", JStr "t1");
                    ("object_marking_refs", JNull)]])))
  = Raise TypeError.
Proof. reflexivity. Qed.

(** ** Spec versions other than 2.0 and 2.1 *)

Lemma new_collection_ext E1 E2 name version description :
  now E1 = now E2 -> uuid4 E1 = uuid4 E2 ->
  new_collection E1 name version description
  = new_collection E2 name version description.
Proof. unfold new_collection. now intros -> ->. Qed.

(** C8 (amended). Take two bundles with the same objects, all of them
    mappings with a [type], none a collection, the content objects with
    [id], [modified] and marking references that can be looped over; the
    first has a [spec_version] that is neither [2.0] nor [2.1] (or none),
    the second says [2.1].  On hosts that agree on the clock and on
    [uuid4], whatever their upgrade does, both calls return a new bundle
    with the same collection object in front of the same objects; the
    first call prints one more line, the version warning, before the
    lines of the loop. *)
Theorem unsupported_version_still_builds
    E1 E2 b1 b2 name version description w1 w2 d1 d2 objs :
  now E1 = now E2 -> uuid4 E1 = uuid4 E2 ->
  nth_error (heap w1) b1 = Some (JDict d1) ->
  nth_error (heap w2) b2 = Some (JDict d2) ->
  dict_get "objects" d1 = Some (JList objs) ->
  dict_get "objects" d2 = Some (JList objs) ->
  py_eq (spec_version_of d1) (JStr "2.0") = false ->
  py_eq (spec_version_of d1) (JStr "2.1") = false ->
  spec_version_of d2 = JStr "2.1" ->
  forallb passes_scan objs = true ->
  forallb identified objs = true ->
  forallb markable objs = true ->
  exists coll notes,
    stix_to_collection E1 b1 name version description w1
    = (Ret (VRef (List.length (heap w1))),
       {| heap := heap w1
                  ++ [JDict (dict_set "objects" (JList (coll :: objs)) d1)];
          stdout := stdout w1
                    ++ ErrorSpecVersion (shown_version d1) :: notes |}) /\
    stix_to_collection E2 b2 name version description w2
    = (Ret (VRef (List.length (heap w2))),
       {| heap := heap w2
                  ++ [JDict (dict_set "objects" (JList (coll :: objs)) d2)];
          stdout := stdout w2 ++ notes |}) /\
    has_type "x-mitre-collection" coll = true /\
    Forall (fun n => exists kept other, n = NoteMultipleCreatedBy kept other)
           notes.
Proof.
  intros Hnow Huuid Hb1 Hb2 Ho1 Ho2 H20 H21 Hv2 Hscan Hid Hm.
  assert (Hgood : forallb good objs = true).
  { apply forallb_good. repeat split; auto.
    clear -Hscan. induction objs as [|o objs IH]; simpl in *; auto.
    apply andb_true_iff in Hscan as [Ho Hobjs].
    unfold passes_scan in Ho. apply andb_true_iff in Ho as [-> _]. auto. }
  assert (Hscan' : contains_collection objs = Ret false)
    by now apply contains_collection_false.
  exists (to_dict (summary objs (new_collection E2 name version description))),
    (conflicts (JStr "") (authors objs)).
  split; [|split; [|split]].
  - rewrite (stix_to_collection_builds _ _ _ _ _ _ d1 objs d1 objs); auto.
    + unfold converted, preamble, version_warning, with_collection.
      rewrite H20, H21. simpl.
      now rewrite (new_collection_ext _ _ _ _ _ Hnow Huuid).
    + unfold objects; simpl. now rewrite Ho1.
    + now apply working_bundle_of_other.
  - rewrite (stix_to_collection_builds _ _ _ _ _ _ d2 objs d2 objs); auto.
    + unfold converted, preamble, version_warning, with_collection.
      rewrite Hv2. reflexivity.
    + unfold objects; simpl. now rewrite Ho2.
    + apply working_bundle_of_other. now rewrite Hv2.
  - reflexivity.
  - generalize (JStr "") as cur. generalize (authors objs) as cs.
    induction cs as [|c cs IH]; intros cur; simpl; [constructor|].
    apply Forall_app. split; [|apply IH].
    unfold conflict.
    destruct (negb (py_eq c cur) && negb (py_eq cur (JStr "")));
      repeat constructor. eauto.
Qed.

Lemma unsupported_version_still_builds_witness :
  exists coll notes,
    stix_to_collection host_failing 0 (JStr "n") (JStr "1") JNull
      (world_of (bundle_without_version sample_objects))
    = (Ret (VRef 1),
       {| heap :=
            [JDict (bundle_without_version sample_objects)]
            ++ [JDict (dict_set "objects" (JList (coll :: sample_objects))
                         (bundle_without_version sample_objects))];
          stdout := [] ++ ErrorSpecVersion (JStr "[NOT FOUND]") :: notes |}) /\
    stix_to_collection host_stepping 0 (JStr "n") (JStr "1") JNull
      (world_of (bundle_of "2.1" sample_objects))
    = (Ret (VRef 1),
       {| heap :=
            [JDict (bundle_of "2.1" sample_objects)]
            ++ [JDict (dict_set "objects" (JList (coll :: sample_objects))
                         (bundle_of "2.1" sample_objects))];
          stdout := [] ++ notes |}) /\
    has_type "x-mitre-collection" coll = true /\
    Forall (fun n => exists kept other, n = NoteMultipleCreatedBy kept other)
           notes.
Proof.
  exact (unsupported_version_still_builds host_failing host_stepping 0 0
           (JStr "n") (JStr "1") JNull
           (world_of (bundle_without_version sample_objects))
           (world_of (bundle_of "2.1" sample_objects))
           (bundle_without_version sample_objects)
           (bundle_of "2.1" sample_objects) sample_objects
           eq_refl eq_refl eq_refl eq_refl eq_refl eq_refl eq_refl eq_refl
           eq_refl eq_refl eq_refl eq_refl).
Defined.

(** A bundle without [spec_version] and without a collection whose only
    object carries [id] and [modified] but no [type]: the call raises
    [KeyError] at line 31, before the version is looked at; no warning is
    printed and no bundle is returned. *)
Lemma unsupported_version_counterexample :
  let objs := [JDict [("id", JStr "a"); ("modified", JStr "t1")]] in
  forallb (fun o => negb (has_type "x-mitre-collection" o)) objs = true /\
  forallb identified objs = true /\
  py_eq (spec_version_of (bundle_without_version objs)) (JStr "2.0") = false /\
  py_eq (spec_version_of (bundle_without_version objs)) (JStr "2.1") = false /\
  stix_to_collection host_stepping 0 (JStr "n") (JStr "1") JNull
    (world_of (bundle_without_version objs))
  = (Raise (KeyError "type"),
     {| heap := [JDict (bundle_without_version objs);
                 JDict (bundle_without_version objs)];
        stdout := [] |}).
Proof. repeat split; reflexivity. Qed.

(** ** Authorship *)

Lemma adopt_settled cur cs :
  py_eq cur (JStr "") = false ->
  fold_left adopt cs cur = cur /\
  conflicts cur cs
  = map (NoteMultipleCreatedBy cur) (filter (fun c => negb (py_eq c cur)) cs).
Proof.
  intros Hcur. induction cs as [|c cs [IH1 IH2]]; simpl; auto.
  assert (Ha : adopt cur c = cur).
  { unfold adopt. rewrite Hcur. simpl. now destruct (py_eq c cur). }
  rewrite Ha. split; auto.
  rewrite IH2. unfold conflict. rewrite Hcur. simpl.
  destruct (py_eq c cur); reflexivity.
Qed.

Lemma adopt_first cs :
  fold_left adopt cs (JStr "") = first_author cs /\
  conflicts (JStr "") cs = author_notes cs.
Proof.
  unfold first_author. induction cs as [|c cs [IH1 IH2]]; simpl; auto.
  unfold nonempty at 1 3, adopt at 2, adopt at 2, conflict. simpl.
  destruct (py_eq c (JStr "")) eqn:Hc; simpl; auto.
  apply (adopt_settled c cs Hc).
Qed.

(** ** Marking references *)












(** ** What a new bundle holds *)

Lemma stix_to_collection_new_inv E b name version description w r w' :
  stix_to_collection E b name version description w = (Ret (VRef r), w') ->
  r <> b ->
  exists d wd wobjs,
    nth_error (heap w) b = Some (JDict d) /\
    working_bundle_of E d = Ret (JDict wd) /\
    dict_get "objects" wd = Some (JList wobjs) /\
    forallb good wobjs = true /\
    r = List.length (heap w) /\
    w' = converted E name version description d wd wobjs w.
Proof.
  intros Hrun Hne.
  apply stix_to_collection_ref_inv in Hrun
    as (d & objs & Hb & Hobjs & [(-> & _) | (-> & Hscan & Hnew)]);
    [congruence|].
  destruct Hnew as (wd & wobjs & Hwork & Hwo & Hgood & ->).
  exists d, wd, wobjs. auto 10.
Qed.

Lemma objects_unless_upgraded E d wd wobjs :
  working_bundle_of E d = Ret (JDict wd) ->
  dict_get "objects" wd = Some (JList wobjs) ->
  py_eq (spec_version_of d) (JStr "2.0") = false ->
  dict_get "objects" d = Some (JList wobjs).
Proof.
  intros Hwork Hwo H20. rewrite (working_bundle_of_other _ _ H20) in Hwork.
  now inversion Hwork; subst.
Qed.



(** The references [[m1]], [[m1, m2]], [[m2]] of three content objects give
    [[m1, m2]]; [m9], which only the marking definition carries, is left
    out. *)
Example marking_refs_of_sample :
  exists out coll rest,
    nth_error
      (heap (snd (stix_to_collection host_stepping 0 (JStr "n") (JStr "1")
                    JNull (world_of (bundle_of "2.1" sample_objects))))) 1
    = Some out /\
    field "objects" out = Some (JList (coll :: rest)) /\
    field "object_marking_refs" coll = Some (JList [JStr "m1"; JStr "m2"]).
Proof. eexists _, _, _. repeat split; reflexivity. Qed.

(** A string where a list is expected is looped over code point by code
    point: the references of ["éaé"] are ["é"] and ["a"]. *)
Example marking_refs_of_a_string :
  exists out coll rest,
    nth_error
      (heap (snd (stix_to_collection host_stepping 0 (JStr "n") (JStr "1")
                    JNull
                    (world_of (bundle_of "2.1"
                       [JDict [("type", JStr "tool"); ("id", JStr "a");
                               ("modified", JStr "t1");
                               ("object_marking_refs", JStr "éaé")]]))))) 1
    = Some out /\
    field "objects" out = Some (JList (coll :: rest)) /\
    field "object_marking_refs" coll = Some (JList [JStr "é"; JStr "a"]).
Proof. eexists _, _, _. repeat split; reflexivity. Qed.

(** C6. Whenever the call returns a new bundle, the collection's
    [created_by_ref] is the first [created_by_ref] of a content object, in
    bundle order, that differs from the empty string, and the empty string
    when there is none; after the lines printed before the loop, the
    output holds one note for each later value that differs from the one
    kept, and nothing else; and every content object, those after a
    conflict included, has its entry in [x_mitre_contents]. *)
Theorem created_by_ref_first_seen E b name version description w r w' :
  stix_to_collection E b name version description w = (Ret (VRef r), w') ->
  r <> b ->
  exists d out coll rest contents,
    nth_error (heap w) b = Some (JDict d) /\
    nth_error (heap w') r = Some out /\
    field "objects" out = Some (JList (coll :: rest)) /\
    (py_eq (spec_version_of d) (JStr "2.0") = false ->
     dict_get "objects" d = Some (JList rest)) /\
    field "created_by_ref" coll = Some (first_author (authors rest)) /\
    stdout w' = stdout w ++ preamble d ++ author_notes (authors rest) /\
    field "x_mitre_contents" coll = Some (JList contents) /\
    Forall2 indexes (filter is_content rest) contents.
Proof.
  intros Hrun Hne.
  destruct (stix_to_collection_new_inv _ _ _ _ _ _ _ _ Hrun Hne)
    as (d & wd & wobjs & Hb & Hwork & Hwo & Hgood & -> & ->).
  destruct (adopt_first (authors wobjs)) as [Hfirst Hnotes].
  eexists d, _, _, wobjs, _.
  split; [exact Hb|].
  split; [unfold converted; simpl; apply nth_error_last|].
  split; [unfold with_collection; simpl; rewrite dict_get_set; reflexivity|].
  split; [apply (objects_unless_upgraded _ _ _ _ Hwork Hwo)|].
  split; [simpl; now rewrite Hfirst|].
  split; [unfold converted; simpl; now rewrite Hnotes|].
  split; [reflexivity|].
  simpl. apply entries_indexes. now apply forallb_good in Hgood.
Qed.

Lemma created_by_ref_first_seen_witness :
  exists d out coll rest contents,
    nth_error (heap (world_of (bundle_of "2.1" sample_objects))) 0
    = Some (JDict d) /\
    nth_error
      (heap (snd (stix_to_collection host_failing 0 (JStr "n") (JStr "1")
                    JNull (world_of (bundle_of "2.1" sample_objects))))) 1
    = Some out /\
    field "objects" out = Some (JList (coll :: rest)) /\
    (py_eq (spec_version_of d) (JStr "2.0") = false ->
     dict_get "objects" d = Some (JList rest)) /\
    field "created_by_ref" coll = Some (first_author (authors rest)) /\
    stdout (snd (stix_to_collection host_failing 0 (JStr "n") (JStr "1")
                   JNull (world_of (bundle_of "2.1" sample_objects))))
    = stdout (world_of (bundle_of "2.1" sample_objects))
      ++ preamble d ++ author_notes (authors rest) /\
    field "x_mitre_contents" coll = Some (JList contents) /\
    Forall2 indexes (filter is_content rest) contents.
Proof.
  apply (created_by_ref_first_seen host_failing 0 (JStr "n") (JStr "1") JNull
           (world_of (bundle_of "2.1" sample_objects)) 1).
  - reflexivity.
  - discriminate.
Defined.

(** Authors [x] then [y]: [x] is kept and one note is printed. *)
Example created_by_ref_of_sample :
  first_author (authors sample_objects) = JStr "x" /\
  author_notes (authors sample_objects)
  = [NoteMultipleCreatedBy (JStr "x") (JStr "y")].
Proof. split; reflexivity. Qed.

(** ** The upgrade of a 2.0 bundle *)

(** C7 (code defect). On a [2.0] bundle whose objects are mappings with a
    [type], none a collection, an upgrade that raises [e] does not make
    the call return [None]: after the lines of 35 and 48, the f-string of
    line 52 calls [traceback.print_exc(e)], which raises [TypeError], and
    that exception leaves the function; line 53 is never reached.  No
    bundle is returned either, and the store holds the untouched copy. *)
Theorem upgrade_failure_escapes E b name version description w d objs e :
  nth_error (heap w) b = Some (JDict d) ->
  dict_get "objects" d = Some (JList objs) ->
  forallb passes_scan objs = true ->
  py_eq (spec_version_of d) (JStr "2.0") = true ->
  step_bundle E (JDict d) = Raise e ->
  stix_to_collection E b name version description w
  = (Raise TypeError,
     {| heap := heap w ++ [JDict d];
        stdout := stdout w ++ [NoteUpgrading; ErrorUpgrade e] |}).
Proof.
  intros Hb Ho Hscan H20 Hstep.
  rewrite (stix_to_collection_scan _ _ _ _ _ _ _ Hb).
  unfold objects; simpl. rewrite Ho. simpl.
  apply contains_collection_false in Hscan. rewrite Hscan.
  rewrite (convert_eq _ _ _ _ _ _ _ d).
  2:{ now apply nth_error_copied_old. }
  2:{ simpl. apply nth_error_last. }
  2:{ eapply nth_error_old_ne_length; eauto. }
  now rewrite H20, Hstep.
Qed.

Lemma upgrade_failure_escapes_witness :
  stix_to_collection host_failing 0 (JStr "n") (JStr "1") JNull
    (world_of (bundle_of "2.0" sample_objects))
  = (Raise TypeError,
     {| heap := [JDict (bundle_of "2.0" sample_objects)]
                ++ [JDict (bundle_of "2.0" sample_objects)];
        stdout := [] ++ [NoteUpgrading;
                         ErrorUpgrade (OtherException "elevator")] |}).
Proof.
  exact (upgrade_failure_escapes host_failing 0 (JStr "n") (JStr "1") JNull
           (world_of (bundle_of "2.0" sample_objects))
           (bundle_of "2.0" sample_objects) sample_objects
           (OtherException "elevator")
           eq_refl eq_refl eq_refl eq_refl eq_refl).
Defined.

(** Had line 52 called [traceback.print_exc()] without an argument, the
    [try] block would have ended in the [return None] of line 53. *)
Example print_exc_without_argument :
  traceback_print_exc LimitNone = Ret JNull /\
  forall e, traceback_print_exc (LimitExn e) = Raise TypeError.
Proof. split; reflexivity. Qed.

(** ** The generation timestamp *)

Lemma decimal_aux_big f n acc :
  10 <= n ->
  decimal_aux (S f) n acc = decimal_aux f (n / 10) (String (digit n) acc).
Proof.
  intros H. cbn [decimal_aux].
  destruct (Nat.ltb_spec n 10); auto; lia.
Qed.

Lemma decimal_aux_small f n acc :
  n < 10 -> decimal_aux (S f) n acc = String (digit n) acc.
Proof.
  intros H. cbn [decimal_aux].
  destruct (Nat.ltb_spec n 10); auto; lia.
Qed.

(** A year of four digits prints as its four digits. *)
Lemma decimal_four n :
  1 <= n / 1000 <= 9 ->
  decimal n
  = String (digit (n / 1000))
      (String (digit (n / 100)) (String (digit (n / 10)) (String (digit n) ""))).
Proof.
  intros [Hlo Hhi]. unfold decimal.
  assert (Hn : 1000 <= n).
  { destruct (Nat.lt_ge_cases n 1000) as [Hlt|]; auto.
    rewrite (Nat.div_small n 1000 Hlt) in Hlo. lia. }
  replace (S n) with (S (S (S (S (n - 3))))) by lia.
  assert (H1 : 100 <= n / 10) by (apply Nat.div_le_lower_bound; lia).
  assert (H2 : 10 <= n / 10 / 10) by (apply Nat.div_le_lower_bound; lia).
  assert (H3 : n / 10 / 10 / 10 < 10).
  { replace (n / 10 / 10 / 10) with (n / 1000); [lia|].
    now rewrite !Nat.Div0.div_div. }
  rewrite decimal_aux_big by lia.
  rewrite decimal_aux_big by lia.
  rewrite decimal_aux_big by lia.
  rewrite decimal_aux_small by lia.
  rewrite !Nat.Div0.div_div. reflexivity.
Qed.

(** The format of line 59, character by character, for a clock whose year
    has four digits: [YYYY-MM-DDTHH:MM:SS.ffffffZ]. *)
Lemma strftime_shape t :
  1 <= year t / 1000 <= 9 ->
  strftime t
  = String (digit (year t / 1000)) (String (digit (year t / 100))
      (String (digit (year t / 10)) (String (digit (year t))
      (String "-"
      (String (digit (month t / 10)) (String (digit (month t))
      (String "-"
      (String (digit (day t / 10)) (String (digit (day t))
      (String "T"
      (String (digit (hour t / 10)) (String (digit (hour t))
      (String ":"
      (String (digit (minute t / 10)) (String (digit (minute t))
      (String ":"
      (String (digit (second t / 10)) (String (digit (second t))
      (String "."
      (String (digit (microsecond t / (100 * 1000)))
      (String (digit (microsecond t / (10 * 1000)))
      (String (digit (microsecond t / 1000))
      (String (digit (microsecond t / 100))
      (String (digit (microsecond t / 10))
      (String (digit (microsecond t))
      (String "Z" "")))))))))))))))))))))))))).
Proof.
  intros Hy. unfold strftime. rewrite (decimal_four _ Hy).
  cbn [digits append]. rewrite !Nat.Div0.div_div. reflexivity.
Qed.

(** C9 (code defect). Whenever the call returns a new bundle, the
    collection's [created] and [modified] hold one and the same string:
    the reading of [datetime.now()], the host's local wall clock, in the
    format of line 59 with its literal [Z].  The UTC clock is not read. *)
Theorem timestamp_is_local_clock E b name version description w r w' :
  stix_to_collection E b name version description w = (Ret (VRef r), w') ->
  r <> b ->
  exists out coll rest,
    nth_error (heap w') r = Some out /\
    field "objects" out = Some (JList (coll :: rest)) /\
    field "created" coll = Some (JStr (strftime (now E))) /\
    field "modified" coll = Some (JStr (strftime (now E))).
Proof.
  intros Hrun Hne.
  destruct (stix_to_collection_new_inv _ _ _ _ _ _ _ _ Hrun Hne)
    as (d & wd & wobjs & Hb & Hwork & Hwo & Hgood & -> & ->).
  eexists _, _, wobjs.
  split; [unfold converted; simpl; apply nth_error_last|].
  split; [unfold with_collection; simpl; rewrite dict_get_set; reflexivity|].
  split; reflexivity.
Qed.

(** On a host two hours east of Greenwich, at 10:00:05 UTC, the collection
    is stamped [12:00:05] with the suffix [Z]. *)
Lemma timestamp_is_local_clock_witness :
  (exists out coll rest,
      nth_error
        (heap (snd (stix_to_collection host_stepping 0 (JStr "n") (JStr "1")
                      JNull (world_of (bundle_of "2.1" sample_objects))))) 1
      = Some out /\
      field "objects" out = Some (JList (coll :: rest)) /\
      field "created" coll = Some (JStr "2024-01-02T12:00:05.000042Z") /\
      field "modified" coll = Some (JStr "2024-01-02T12:00:05.000042Z")) /\
  strftime (utcnow host_stepping) = "2024-01-02T10:00:05.000042Z".
Proof.
  split; [|reflexivity].
  apply (timestamp_is_local_clock host_stepping 0 (JStr "n") (JStr "1") JNull
           (world_of (bundle_of "2.1" sample_objects)) 1).
  - reflexivity.
  - discriminate.
Defined.

(** * Further properties *)

(** ** The fixed fields of the collection object *)

(** X1. Whenever the call returns a new bundle, the collection's
    [description] is the caller's argument when that argument is truthy,
    and the fixed default text when it is [None], the empty string or any
    other falsy value. *)
Theorem description_defaults E b name version description w r w' :
  stix_to_collection E b name version description w = (Ret (VRef r), w') ->
  r <> b ->
  exists out coll rest,
    nth_error (heap w') r = Some out /\
    field "objects" out = Some (JList (coll :: rest)) /\
    field "description" coll
    = Some (if truthy description then description
            else JStr default_description).
Proof.
  intros Hrun Hne.
  destruct (stix_to_collection_new_inv _ _ _ _ _ _ _ _ Hrun Hne)
    as (d & wd & wobjs & Hb & Hwork & Hwo & Hgood & -> & ->).
  eexists _, _, wobjs.
  split; [unfold converted; simpl; apply nth_error_last|].
  split; [unfold with_collection; simpl; rewrite dict_get_set; reflexivity|].
  simpl. now destruct (truthy description).
Qed.

Lemma description_defaults_witness :
  exists out coll rest,
    nth_error
      (heap (snd (stix_to_collection host_stepping 0 (JStr "n") (JStr "1")
                    (JStr "") (world_of (bundle_of "2.1" sample_objects))))) 1
    = Some out /\
    field "objects" out = Some (JList (coll :: rest)) /\
    field "description" coll
    = Some (if truthy (JStr "") then JStr "" else JStr default_description).
Proof.
  apply (description_defaults host_stepping 0 (JStr "n") (JStr "1") (JStr "")
           (world_of (bundle_of "2.1" sample_objects)) 1).
  - reflexivity.
  - discriminate.
Defined.

(** X2. Whenever the call returns a new bundle, whatever the input's
    [spec_version], the collection object carries the twelve keys of the
    [dict(...)] call in that order, with [type] [x-mitre-collection], an
    [id] made of the prefix [x-mitre-collection--] and the drawn uuid,
    [spec_version] [2.1], [x_mitre_attack_spec_version] [2.1.0], and the
    caller's [name] and [version] under [name] and [x_mitre_version]. *)
Theorem collection_is_stamped E b name version description w r w' :
  stix_to_collection E b name version description w = (Ret (VRef r), w') ->
  r <> b ->
  exists out coll rest,
    nth_error (heap w') r = Some out /\
    field "objects" out = Some (JList (coll :: rest)) /\
    keys coll = collection_keys /\
    field "type" coll = Some (JStr "x-mitre-collection") /\
    field "id" coll = Some (JStr ("x-mitre-collection--" ++ uuid4 E)%string) /\
    field "spec_version" coll = Some (JStr "2.1") /\
    field "x_mitre_attack_spec_version" coll = Some (JStr "2.1.0") /\
    field "name" coll = Some name /\
    field "x_mitre_version" coll = Some version.
Proof.
  intros Hrun Hne.
  destruct (stix_to_collection_new_inv _ _ _ _ _ _ _ _ Hrun Hne)
    as (d & wd & wobjs & Hb & Hwork & Hwo & Hgood & -> & ->).
  eexists _, _, wobjs.
  split; [unfold converted; simpl; apply nth_error_last|].
  split; [unfold with_collection; simpl; rewrite dict_get_set; reflexivity|].
  repeat split; reflexivity.
Qed.

Lemma collection_is_stamped_witness :
  exists out coll rest,
    nth_error
      (heap (snd (stix_to_collection host_stepping 0 (JStr "n") (JStr "1")
                    JNull (world_of (bundle_of "2.0" sample_objects))))) 1
    = Some out /\
    field "objects" out = Some (JList (coll :: rest)) /\
    keys coll = collection_keys /\
    field "type" coll = Some (JStr "x-mitre-collection") /\
    field "id" coll
    = Some (JStr ("x-mitre-collection--" ++ uuid4 host_stepping)%string) /\
    field "spec_version" coll = Some (JStr "2.1") /\
    field "x_mitre_attack_spec_version" coll = Some (JStr "2.1.0") /\
    field "name" coll = Some (JStr "n") /\
    field "x_mitre_version" coll = Some (JStr "1").
Proof.
  apply (collection_is_stamped host_stepping 0 (JStr "n") (JStr "1") JNull
           (world_of (bundle_of "2.0" sample_objects)) 1).
  - reflexivity.
  - discriminate.
Defined.

(** ** The rest of the bundle *)

Lemma dict_get_set_other k k' v d :
  k <> k' -> dict_get k' (dict_set k v d) = dict_get k' d.
Proof.
  intros Hne. induction d as [|[k0 v0] d IH]; simpl.
  - destruct (String.eqb k' k) eqn:Hk; auto.
    apply String.eqb_eq in Hk. congruence.
  - destruct (String.eqb k k0) eqn:Hk; simpl.
    + apply String.eqb_eq in Hk. subst k0.
      destruct (String.eqb k' k) eqn:Hk'; auto.
      apply String.eqb_eq in Hk'. congruence.
    + now rewrite IH.
Qed.

Lemma keys_dict_set k v x d :
  dict_get k d = Some x -> map fst (dict_set k v d) = map fst d.
Proof.
  induction d as [|[k0 v0] d IH]; simpl; try discriminate.
  destruct (String.eqb k k0) eqn:Hk; simpl; auto.
  intros H. now rewrite IH.
Qed.

(** X3. Whenever the call returns a new bundle, that bundle has the keys
    of the working bundle in the same order and, under every key but
    [objects], the same value; the working bundle is the input's copy
    unless the input said [2.0].  So a bundle keeps its own [type], [id]
    and [spec_version], an unsupported one included. *)
Theorem bundle_fields_preserved E b name version description w r w' :
  stix_to_collection E b name version description w = (Ret (VRef r), w') ->
  r <> b ->
  exists d wd out,
    nth_error (heap w) b = Some (JDict d) /\
    working_bundle_of E d = Ret (JDict wd) /\
    (py_eq (spec_version_of d) (JStr "2.0") = false -> wd = d) /\
    nth_error (heap w') r = Some out /\
    keys out = map fst wd /\
    (forall k, k <> "objects" -> field k out = dict_get k wd).
Proof.
  intros Hrun Hne.
  destruct (stix_to_collection_new_inv _ _ _ _ _ _ _ _ Hrun Hne)
    as (d & wd & wobjs & Hb & Hwork & Hwo & Hgood & -> & ->).
  eexists d, wd, _.
  split; [exact Hb|]. split; [exact Hwork|].
  split.
  { intros H20. rewrite (working_bundle_of_other _ _ H20) in Hwork.
    now inversion Hwork. }
  split; [unfold converted; simpl; apply nth_error_last|].
  split.
  - unfold with_collection; simpl. eapply keys_dict_set; eauto.
  - intros k Hk. unfold with_collection; simpl.
    apply dict_get_set_other. congruence.
Qed.

Lemma bundle_fields_preserved_witness :
  exists d wd out,
    nth_error (heap (world_of (bundle_of "1.0" sample_objects))) 0
    = Some (JDict d) /\
    working_bundle_of host_stepping d = Ret (JDict wd) /\
    (py_eq (spec_version_of d) (JStr "2.0") = false -> wd = d) /\
    nth_error
      (heap (snd (stix_to_collection host_stepping 0 (JStr "n") (JStr "1")
                    JNull (world_of (bundle_of "1.0" sample_objects))))) 1
    = Some out /\
    keys out = map fst wd /\
    (forall k, k <> "objects" -> field k out = dict_get k wd).
Proof.
  apply (bundle_fields_preserved host_stepping 0 (JStr "n") (JStr "1") JNull
           (world_of (bundle_of "1.0" sample_objects)) 1).
  - reflexivity.
  - discriminate.
Defined.

(** ** One collection object *)

Lemma passes_scan_no_collection objs :
  forallb passes_scan objs = true ->
  filter (has_type "x-mitre-collection") objs = [].
Proof.
  induction objs as [|o objs IH]; simpl; auto.
  intros H. apply andb_true_iff in H as [Ho Hobjs].
  unfold passes_scan in Ho. apply andb_true_iff in Ho as [_ Ho].
  apply negb_true_iff in Ho. rewrite Ho. auto.
Qed.

(** X4. When the input's [spec_version] is not [2.0] and the call returns
    a new bundle, the objects of that bundle are the collection object
    followed by the input's objects, and the collection object in front is
    the only object of type [x-mitre-collection] among them. *)
Theorem one_collection_in_front E b name version description w r w' d :
  stix_to_collection E b name version description w = (Ret (VRef r), w') ->
  r <> b ->
  nth_error (heap w) b = Some (JDict d) ->
  py_eq (spec_version_of d) (JStr "2.0") = false ->
  exists out objs coll,
    dict_get "objects" d = Some (JList objs) /\
    nth_error (heap w') r = Some out /\
    field "objects" out = Some (JList (coll :: objs)) /\
    filter (has_type "x-mitre-collection") (coll :: objs) = [coll].
Proof.
  intros Hrun Hne Hb H20.
  apply stix_to_collection_ref_inv in Hrun
    as (d' & objs & Hb' & Hobjs & [(-> & _) | (-> & Hscan & Hnew)]);
    [congruence|].
  rewrite Hb in Hb'. inversion Hb'; subst d'. clear Hb'.
  destruct Hnew as (wd & wobjs & Hwork & Hwo & Hgood & ->).
  pose proof (objects_unless_upgraded _ _ _ _ Hwork Hwo H20) as Ho.
  unfold objects in Hobjs; simpl in Hobjs. rewrite Ho in Hobjs.
  simpl in Hobjs. inversion Hobjs; subst objs. clear Hobjs.
  eexists _, wobjs, _.
  split; [exact Ho|].
  split; [unfold converted; simpl; apply nth_error_last|].
  split; [unfold with_collection; simpl; rewrite dict_get_set; reflexivity|].
  cbn [filter]. apply contains_collection_false in Hscan.
  rewrite (passes_scan_no_collection _ Hscan). reflexivity.
Qed.

Lemma one_collection_in_front_witness :
  exists out objs coll,
    dict_get "objects" (bundle_of "2.1" sample_objects) = Some (JList objs) /\
    nth_error
      (heap (snd (stix_to_collection host_failing 0 (JStr "n") (JStr "1")
                    JNull (world_of (bundle_of "2.1" sample_objects))))) 1
    = Some out /\
    field "objects" out = Some (JList (coll :: objs)) /\
    filter (has_type "x-mitre-collection") (coll :: objs) = [coll].
Proof.
  apply (one_collection_in_front host_failing 0 (JStr "n") (JStr "1") JNull
           (world_of (bundle_of "2.1" sample_objects)) 1).
  - reflexivity.
  - discriminate.
  - reflexivity.
  - reflexivity.
Defined.

(** ** Bundles without content *)

Lemma py_eq_str_r v s : py_eq v (JStr s) = true -> v = JStr s.
Proof.
  destruct v; simpl; try discriminate.
  intros H. apply String.eqb_eq in H. now subst.
Qed.

Lemma marking_definition_facts o :
  has_type "marking-definition" o = true ->
  passes_scan o = true /\ good o = true /\ is_content o = false.
Proof.
  unfold passes_scan, good, is_content, typed, has_field, has_type.
  destruct (field "type" o) as [t|]; try discriminate.
  intros H. rewrite H. apply py_eq_str_r in H. subst t. auto.
Qed.

Lemma only_marking_definitions_facts objs :
  forallb (has_type "marking-definition") objs = true ->
  forallb passes_scan objs = true /\ forallb good objs = true /\
  filter is_content objs = [].
Proof.
  induction objs as [|o objs IH]; simpl; auto.
  intros H. apply andb_true_iff in H as [Ho Hobjs].
  destruct (marking_definition_facts _ Ho) as (-> & -> & ->).
  simpl. auto.
Qed.

(** X5. When the input's [spec_version] is not [2.0] and every object is a
    [marking-definition] (in particular when [objects] is empty), the call
    returns a new bundle whose collection has an empty [x_mitre_contents],
    an empty [object_marking_refs] and the empty string as
    [created_by_ref]; nothing is printed but the version warning, if the
    version calls for one. *)
Theorem only_marking_definitions E b name version description w d objs :
  nth_error (heap w) b = Some (JDict d) ->
  dict_get "objects" d = Some (JList objs) ->
  py_eq (spec_version_of d) (JStr "2.0") = false ->
  forallb (has_type "marking-definition") objs = true ->
  exists coll,
    stix_to_collection E b name version description w
    = (Ret (VRef (List.length (heap w))),
       {| heap := heap w
                  ++ [JDict (dict_set "objects" (JList (coll :: objs)) d)];
          stdout := stdout w ++ version_warning d |}) /\
    field "x_mitre_contents" coll = Some (JList []) /\
    field "object_marking_refs" coll = Some (JList []) /\
    field "created_by_ref" coll = Some (JStr "").
Proof.
  intros Hb Ho H20 Hmd.
  destruct (only_marking_definitions_facts _ Hmd) as (Hscan & Hgood & Hnone).
  exists (to_dict (summary objs (new_collection E name version description))).
  split.
  - rewrite (stix_to_collection_builds _ _ _ _ _ _ d objs d objs); auto.
    + unfold converted, preamble, with_collection, authors.
      rewrite H20, Hnone. simpl. now rewrite app_nil_r.
    + unfold objects; simpl. now rewrite Ho.
    + now apply contains_collection_false.
    + now apply working_bundle_of_other.
  - unfold summary, entries, marking_refs, authors. rewrite Hnone.
    simpl. auto.
Qed.

Lemma only_marking_definitions_witness :
  exists coll,
    stix_to_collection host_failing 0 (JStr "n") (JStr "1") JNull
      (world_of (bundle_of "2.1" [marking_m1]))
    = (Ret (VRef 1),
       {| heap := [JDict (bundle_of "2.1" [marking_m1])]
                  ++ [JDict (dict_set "objects" (JList [coll; marking_m1])
                               (bundle_of "2.1" [marking_m1]))];
          stdout := [] ++ version_warning (bundle_of "2.1" [marking_m1]) |}) /\
    field "x_mitre_contents" coll = Some (JList []) /\
    field "object_marking_refs" coll = Some (JList []) /\
    field "created_by_ref" coll = Some (JStr "").
Proof.
  exact (only_marking_definitions host_failing 0 (JStr "n") (JStr "1") JNull
           (world_of (bundle_of "2.1" [marking_m1]))
           (bundle_of "2.1" [marking_m1]) [marking_m1]
           eq_refl eq_refl eq_refl eq_refl).
Defined.

(** ** A bundle without usable [objects] *)

(** X6. Line 30 is unguarded: on a mapping without [objects] the call
    raises [KeyError("objects")]; on a bundle that is not a mapping, or
    whose [objects] cannot be looped over ([null], a number, a boolean),
    it raises [TypeError].  In each case nothing has been printed and only
    the copy has been allocated. *)
Theorem objects_must_be_iterable E b name version description w :
  (forall d,
      nth_error (heap w) b = Some (JDict d) ->
      dict_get "objects" d = None ->
      stix_to_collection E b name version description w
      = (Raise (KeyError "objects"),
         {| heap := heap w ++ [JDict d]; stdout := stdout w |}))
  /\
  (forall v,
      nth_error (heap w) b = Some v ->
      (forall d, v <> JDict d) ->
      stix_to_collection E b name version description w
      = (Raise TypeError, {| heap := heap w ++ [v]; stdout := stdout w |}))
  /\
  (forall d x,
      nth_error (heap w) b = Some (JDict d) ->
      dict_get "objects" d = Some x ->
      iterable x = false ->
      stix_to_collection E b name version description w
      = (Raise TypeError,
         {| heap := heap w ++ [JDict d]; stdout := stdout w |})).
Proof.
  split; [|split].
  - intros d Hb Ho.
    rewrite (stix_to_collection_scan _ _ _ _ _ _ _ Hb).
    unfold objects; simpl. now rewrite Ho.
  - intros v Hb Hv.
    rewrite (stix_to_collection_scan _ _ _ _ _ _ _ Hb).
    unfold objects. destruct v; try reflexivity.
    now destruct (Hv d).
  - intros d x Hb Ho Hx.
    rewrite (stix_to_collection_scan _ _ _ _ _ _ _ Hb).
    unfold objects; simpl. rewrite Ho.
    destruct x; simpl in *; try discriminate; reflexivity.
Qed.

Lemma objects_must_be_iterable_witness :
  stix_to_collection host_stepping 0 (JStr "n") (JStr "1") JNull
    (world_of [("type", JStr "bundle")])
  = (Raise (KeyError "objects"),
     {| heap := [JDict [("type", JStr "bundle")]]
                ++ [JDict [("type", JStr "bundle")]];
        stdout := [] |})
  /\
  stix_to_collection host_stepping 0 (JStr "n") (JStr "1") JNull
    {| heap := [JList sample_objects]; stdout := [] |}
  = (Raise TypeError,
     {| heap := [JList sample_objects] ++ [JList sample_objects];
        stdout := [] |})
  /\
  stix_to_collection host_stepping 0 (JStr "n") (JStr "1") JNull
    (world_of [("objects", JNull)])
  = (Raise TypeError,
     {| heap := [JDict [("objects", JNull)]] ++ [JDict [("objects", JNull)]];
        stdout := [] |}).
Proof.
  split; [|split].
  - apply (proj1 (objects_must_be_iterable host_stepping 0 (JStr "n")
                    (JStr "1") JNull (world_of [("type", JStr "bundle")])));
      reflexivity.
  - apply (proj1 (proj2 (objects_must_be_iterable host_stepping 0 (JStr "n")
                           (JStr "1") JNull
                           {| heap := [JList sample_objects];
                              stdout := [] |}))).
    + reflexivity.
    + discriminate.
  - apply (proj2 (proj2 (objects_must_be_iterable host_stepping 0 (JStr "n")
                           (JStr "1") JNull (world_of [("objects", JNull)])))
             _ JNull); reflexivity.
Defined.

(** ** Marking references that cannot be looped over *)

Lemma visit_bad_refs o raw w v :
  typed o = true -> is_content o = true ->
  has_field "id" o && has_field "modified" o = true ->
  field "object_marking_refs" o = Some v ->
  iterable v = false ->
  visit o raw w = (Raise TypeError, w).
Proof.
  unfold typed, is_content, has_type, has_field.
  destruct o as [| | | | |d]; simpl; try discriminate.
  destruct (dict_get "type" d) as [t|] eqn:Ht; simpl; try discriminate.
  intros _ Hmd Hf Hv Hit.
  unfold visit, bind, lift; simpl. rewrite Ht; simpl.
  apply negb_true_iff in Hmd. rewrite Hmd.
  unfold content_entry; simpl.
  destruct (dict_get "id" d) as [i|]; simpl in *; try discriminate.
  destruct (dict_get "modified" d) as [m|]; simpl in *; try discriminate.
  rewrite Hv. simpl.
  destruct v; simpl in *; try discriminate; reflexivity.
Qed.

(** X7. Lines 85-86 are unguarded: when a content object with [type], [id]
    and [modified] carries [object_marking_refs] that cannot be looped
    over ([null], a number, a boolean), and only good objects come before
    it, the call raises [TypeError]; no bundle and no [None] comes back,
    and the notes of the objects before it have been printed. *)
Theorem marking_refs_must_be_iterable
    E b name version description w d objs wd pre o post v :
  nth_error (heap w) b = Some (JDict d) ->
  dict_get "objects" d = Some (JList objs) ->
  forallb passes_scan objs = true ->
  working_bundle_of E d = Ret (JDict wd) ->
  dict_get "objects" wd = Some (JList (pre ++ o :: post)) ->
  forallb good pre = true ->
  typed o = true ->
  is_content o = true ->
  has_field "id" o && has_field "modified" o = true ->
  field "object_marking_refs" o = Some v ->
  iterable v = false ->
  stix_to_collection E b name version description w
  = (Raise TypeError,
     {| heap := heap w ++ [JDict wd];
        stdout := stdout w ++ preamble d
                  ++ conflicts (JStr "") (authors pre) |}).
Proof.
  intros Hb Ho Hscan Hwork Hwo Hpre Ht Hc Hf Hv Hit.
  rewrite (stix_to_collection_reaches_build _ _ _ _ _ _ d objs (JDict wd));
    auto.
  2:{ unfold objects; simpl. now rewrite Ho. }
  2:{ now apply contains_collection_false. }
  unfold build, bind at 1.
  rewrite (objects_of_eq _ (JDict wd)) by (simpl; apply nth_error_last).
  simpl. rewrite Hwo. simpl.
  unfold bind at 1. rewrite (aggregate_app_good _ _ _ _ Hpre).
  simpl. unfold bind at 1.
  rewrite (visit_bad_refs _ _ _ v Ht Hc Hf Hv Hit).
  unfold emit; simpl. now rewrite <- app_assoc.
Qed.

Lemma marking_refs_must_be_iterable_witness :
  stix_to_collection host_stepping 0 (JStr "n") (JStr "1") JNull
    (world_of (bundle_of "2.1" [pattern_a; malware_b; tool_null_refs; tool_c]))
  = (Raise TypeError,
     {| heap :=
          [JDict (bundle_of "2.1"
                    [pattern_a; malware_b; tool_null_refs; tool_c])]
          ++ [JDict (bundle_of "2.1"
                       [pattern_a; malware_b; tool_null_refs; tool_c])];
        stdout :=
          [] ++ preamble (bundle_of "2.1"
                            [pattern_a; malware_b; tool_null_refs; tool_c])
          ++ conflicts (JStr "") (authors [pattern_a; malware_b]) |}).
Proof.
  exact (marking_refs_must_be_iterable host_stepping 0 (JStr "n") (JStr "1")
           JNull
           (world_of (bundle_of "2.1"
                        [pattern_a; malware_b; tool_null_refs; tool_c]))
           (bundle_of "2.1" [pattern_a; malware_b; tool_null_refs; tool_c])
           [pattern_a; malware_b; tool_null_refs; tool_c]
           (bundle_of "2.1" [pattern_a; malware_b; tool_null_refs; tool_c])
           [pattern_a; malware_b] tool_null_refs [tool_c] JNull
           eq_refl eq_refl eq_refl eq_refl eq_refl eq_refl eq_refl eq_refl
           eq_refl eq_refl eq_refl).
Defined.

(** ** Marking definitions do not count *)

Lemma filter_idempotent {A} (p : A -> bool) l :
  filter p (filter p l) = filter p l.
Proof.
  induction l as [|x l IH]; simpl; auto.
  destruct (p x) eqn:Hx; simpl; rewrite ?Hx, IH; auto.
Qed.

Lemma forallb_filter {A} (p q : A -> bool) l :
  forallb p l = true -> forallb p (filter q l) = true.
Proof.
  induction l as [|x l IH]; simpl; auto.
  intros H. apply andb_true_iff in H as [Hx Hl].
  destruct (q x); simpl; rewrite ?Hx; auto.
Qed.

Lemma summary_content_only objs raw :
  summary (filter is_content objs) raw = summary objs raw.
Proof.
  unfold summary, entries, marking_refs, authors.
  now rewrite filter_idempotent.
Qed.

(** X9. The collection object depends on the content objects only: for a
    bundle of good objects without a collection and the same bundle with
    its [marking-definition] objects taken out (neither saying [2.0]),
    the two calls build the same collection object and print the same
    notes after their version warnings. *)
Theorem marking_definitions_do_not_count
    E b1 b2 name version description w1 w2 d1 d2 objs :
  nth_error (heap w1) b1 = Some (JDict d1) ->
  nth_error (heap w2) b2 = Some (JDict d2) ->
  dict_get "objects" d1 = Some (JList objs) ->
  dict_get "objects" d2 = Some (JList (filter is_content objs)) ->
  py_eq (spec_version_of d1) (JStr "2.0") = false ->
  py_eq (spec_version_of d2) (JStr "2.0") = false ->
  forallb passes_scan objs = true ->
  forallb good objs = true ->
  exists coll notes,
    stix_to_collection E b1 name version description w1
    = (Ret (VRef (List.length (heap w1))),
       {| heap := heap w1
                  ++ [JDict (dict_set "objects" (JList (coll :: objs)) d1)];
          stdout := stdout w1 ++ version_warning d1 ++ notes |}) /\
    stix_to_collection E b2 name version description w2
    = (Ret (VRef (List.length (heap w2))),
       {| heap := heap w2
                  ++ [JDict (dict_set "objects"
                               (JList (coll :: filter is_content objs)) d2)];
          stdout := stdout w2 ++ version_warning d2 ++ notes |}).
Proof.
  intros Hb1 Hb2 Ho1 Ho2 H1 H2 Hscan Hgood.
  exists (to_dict (summary objs (new_collection E name version description))),
    (conflicts (JStr "") (authors objs)).
  split.
  - rewrite (stix_to_collection_builds _ _ _ _ _ _ d1 objs d1 objs); auto.
    + unfold converted, preamble. now rewrite H1.
    + unfold objects; simpl. now rewrite Ho1.
    + now apply contains_collection_false.
    + now apply working_bundle_of_other.
  - rewrite (stix_to_collection_builds _ _ _ _ _ _ d2
               (filter is_content objs) d2 (filter is_content objs)); auto.
    + unfold converted, preamble, with_collection. rewrite H2.
      rewrite summary_content_only.
      unfold authors. now rewrite filter_idempotent.
    + unfold objects; simpl. now rewrite Ho2.
    + apply contains_collection_false. now apply forallb_filter.
    + now apply working_bundle_of_other.
    + now apply forallb_filter.
Qed.

Lemma marking_definitions_do_not_count_witness :
  exists coll notes,
    stix_to_collection host_stepping 0 (JStr "n") (JStr "1") JNull
      (world_of (bundle_of "2.1" sample_objects))
    = (Ret (VRef 1),
       {| heap := [JDict (bundle_of "2.1" sample_objects)]
                  ++ [JDict (dict_set "objects"
                               (JList (coll :: sample_objects))
                               (bundle_of "2.1" sample_objects))];
          stdout := [] ++ version_warning (bundle_of "2.1" sample_objects)
                    ++ notes |}) /\
    stix_to_collection host_stepping 0 (JStr "n") (JStr "1") JNull
      (world_of (bundle_of "2.1" [pattern_a; malware_b; tool_c]))
    = (Ret (VRef 1),
       {| heap := [JDict (bundle_of "2.1" [pattern_a; malware_b; tool_c])]
                  ++ [JDict (dict_set "objects"
                               (JList (coll :: filter is_content sample_objects))
                               (bundle_of "2.1" [pattern_a; malware_b; tool_c]))];
          stdout := [] ++ version_warning
                            (bundle_of "2.1" [pattern_a; malware_b; tool_c])
                    ++ notes |}).
Proof.
  exact (marking_definitions_do_not_count host_stepping 0 0
           (JStr "n") (JStr "1") JNull
           (world_of (bundle_of "2.1" sample_objects))
           (world_of (bundle_of "2.1" [pattern_a; malware_b; tool_c]))
           (bundle_of "2.1" sample_objects)
           (bundle_of "2.1" [pattern_a; malware_b; tool_c])
           sample_objects
           eq_refl eq_refl eq_refl eq_refl eq_refl eq_refl eq_refl eq_refl).
Defined.

(** ** When [None] comes back *)

Lemma visit_none_inv o raw w w' :
  visit o raw w = (Ret None, w') ->
  typed o = true /\ is_content o = true /\
  has_field "id" o && has_field "modified" o = false /\
  w' = emit [ErrorMissingField o (KeyError (missing_key o))] w.
Proof.
  intros H.
  assert (Ht : typed o = true /\ is_content o = true /\
               has_field "id" o && has_field "modified" o = false).
  { revert H.
    unfold visit, bind, lift, typed, is_content, has_type, has_field.
    destruct o as [| | | | |d]; simpl; try discriminate.
    destruct (dict_get "type" d) as [t|]; simpl; try discriminate.
    destruct (py_eq t (JStr "marking-definition")); simpl; try discriminate.
    unfold content_entry; simpl.
    destruct (dict_get "id" d) as [i|]; simpl; auto.
    destruct (dict_get "modified" d) as [m|]; simpl; auto.
    destruct (dict_get "object_marking_refs" d) as [v|]; simpl.
    - destruct v; simpl; try discriminate;
        destruct (dict_get "created_by_ref" d) as [c|]; simpl;
          try discriminate;
          destruct (py_eq c _); simpl; try discriminate;
            destruct (py_eq _ (JStr "")); simpl; discriminate.
    - destruct (dict_get "created_by_ref" d) as [c|]; simpl;
        try discriminate.
      destruct (py_eq c _); simpl; try discriminate.
      destruct (py_eq _ (JStr "")); simpl; discriminate. }
  destruct Ht as (Ht & Hc & Hf). repeat split; auto.
  rewrite (visit_missing _ raw w Ht Hc Hf) in H. now inversion H.
Qed.

Lemma aggregate_none_inv objs raw w w' :
  aggregate objs raw w = (Ret None, w') ->
  exists pre o post,
    objs = pre ++ o :: post /\ forallb good pre = true /\
    typed o = true /\ is_content o = true /\
    has_field "id" o && has_field "modified" o = false /\
    w' = emit (conflicts (created_by_ref raw) (authors pre)
               ++ [ErrorMissingField o (KeyError (missing_key o))]) w.
Proof.
  revert raw w; induction objs as [|o objs IH]; intros raw w H; simpl in H.
  - discriminate.
  - unfold bind in H.
    destruct (visit o raw w) as [[[raw1|] | e] w1] eqn:Hv; try discriminate.
    + pose proof (visit_some_good _ _ _ _ _ Hv) as Hgood.
      rewrite (visit_good _ _ _ Hgood) in Hv. inversion Hv; subst raw1 w1.
      destruct (IH _ _ H) as (pre & o' & post & -> & Hpre & Ht & Hc & Hf & ->).
      exists (o :: pre), o', post. simpl. rewrite Hgood, Hpre.
      repeat split; auto.
      rewrite emit_emit, (conflicts_cons o pre), app_assoc. reflexivity.
    + inversion H; subst w1.
      destruct (visit_none_inv _ _ _ _ Hv) as (Ht & Hc & Hf & ->).
      exists [], o, objs. repeat split; auto.
Qed.

Lemma typed_chars s o : In o (chars s) -> typed o = false.
Proof.
  rewrite chars_code_points. intros H.
  apply in_map_iff in H as (g & <- & _). reflexivity.
Qed.

Lemma typed_key_names (d : dict) o :
  In o (map (fun kv => JStr (fst kv)) d) -> typed o = false.
Proof.
  induction d as [|kv d IH]; simpl; [tauto|].
  intros [<-|H]; auto.
Qed.

Lemma build_none_inv E wl name version description w wb w' :
  nth_error (heap w) wl = Some wb ->
  build E wl name version description w = (Ret VNone, w') ->
  exists wd pre o post,
    wb = JDict wd /\
    dict_get "objects" wd = Some (JList (pre ++ o :: post)) /\
    forallb good pre = true /\
    typed o = true /\ is_content o = true /\
    has_field "id" o && has_field "modified" o = false /\
    w' = emit (conflicts (JStr "") (authors pre)
               ++ [ErrorMissingField o (KeyError (missing_key o))]) w.
Proof.
  intros Hw. unfold build, bind at 1.
  rewrite (objects_of_eq _ _ _ Hw).
  destruct (getitem wb "objects") as [x|e] eqn:Hx; try discriminate.
  destruct (py_iter x) as [objs|e] eqn:Hit; try discriminate.
  unfold bind at 1.
  destruct (aggregate objs (new_collection E name version description) w)
    as [[[raw|]|e] w1] eqn:Hagg; try discriminate.
  - unfold insert_front, bind, deref, lift, store, ret, raise.
    pose proof (aggregate_some_good _ _ _ _ _ Hagg) as Hg.
    rewrite (aggregate_good _ _ _ Hg) in Hagg. inversion Hagg; subst.
    simpl. rewrite Hw, Hx.
    destruct x; try discriminate; destruct wb; discriminate.
  - unfold ret. intros H. inversion H; subst w1. clear H.
    destruct (aggregate_none_inv _ _ _ _ Hagg)
      as (pre & o & post & -> & Hpre & Ht & Hc & Hf & ->).
    assert (Hin : In o (pre ++ o :: post))
      by (apply in_or_app; right; left; reflexivity).
    destruct wb as [| | | | |wd]; try discriminate.
    exists wd, pre, o, post.
    unfold getitem in Hx.
    destruct (dict_get "objects" wd) as [x'|] eqn:Ho; try discriminate.
    inversion Hx; subst x'. clear Hx.
    destruct x as [| | |s|l|dk]; simpl in Hit; try discriminate;
      inversion Hit as [Hl].
    + rewrite <- Hl in Hin. apply typed_chars in Hin. congruence.
    + subst l. repeat split; auto.
    + rewrite <- Hl in Hin. apply typed_key_names in Hin. congruence.
Qed.

(** X10. [None] has one cause.  Whenever the call returns [None], the
    working bundle (the copy, or for a [2.0] bundle what the upgrade
    returned) holds a content object with a [type] that lacks [id] or
    [modified], after good objects only, and the last line printed names
    that object and the missing key; a failed upgrade never ends in
    [None]. *)
Theorem none_means_missing_field E b name version description w w' :
  stix_to_collection E b name version description w = (Ret VNone, w') ->
  exists d wd pre o post,
    nth_error (heap w) b = Some (JDict d) /\
    working_bundle_of E d = Ret (JDict wd) /\
    dict_get "objects" wd = Some (JList (pre ++ o :: post)) /\
    forallb good pre = true /\
    typed o = true /\ is_content o = true /\
    has_field "id" o && has_field "modified" o = false /\
    stdout w'
    = stdout w ++ preamble d ++ conflicts (JStr "") (authors pre)
      ++ [ErrorMissingField o (KeyError (missing_key o))].
Proof.
  intros H.
  destruct (nth_error (heap w) b) as [bj|] eqn:Hb.
  2:{ rewrite stix_to_collection_dangling in H by auto. discriminate. }
  pose proof H as H0.
  rewrite (stix_to_collection_scan _ _ _ _ _ _ _ Hb) in H.
  destruct (objects bj) as [objs|e] eqn:Hobjs; try discriminate.
  assert (exists d, bj = JDict d) as [d ->].
  { destruct bj; try discriminate. eauto. }
  destruct (contains_collection objs) as [[|]|e] eqn:Hscan; try discriminate.
  destruct (working_bundle_of E d) as [wb|e] eqn:Hwork.
  - rewrite (stix_to_collection_reaches_build _ _ _ _ _ _ d objs wb
               Hb Hobjs Hscan Hwork) in H0.
    apply (build_none_inv _ _ _ _ _ _ wb) in H0;
      [|simpl; apply nth_error_last].
    destruct H0 as (wd & pre & o & post & -> & Hwo & Hpre & Ht & Hc & Hf & ->).
    exists d, wd, pre, o, post. repeat split; auto.
    unfold emit; simpl. now rewrite <- app_assoc.
  - rewrite (convert_eq _ _ _ _ _ _ _ d) in H.
    2:{ now apply nth_error_copied_old. }
    2:{ simpl. apply nth_error_last. }
    2:{ eapply nth_error_old_ne_length; eauto. }
    unfold working_bundle_of in Hwork.
    destruct (py_eq (spec_version_of d) (JStr "2.0")); try discriminate.
    rewrite Hwork in H. discriminate.
Qed.

Lemma none_means_missing_field_witness :
  exists d wd pre o post,
    nth_error
      (heap (world_of (bundle_of "2.1"
                         [pattern_a; malware_b; tool_no_modified; tool_c]))) 0
    = Some (JDict d) /\
    working_bundle_of host_failing d = Ret (JDict wd) /\
    dict_get "objects" wd = Some (JList (pre ++ o :: post)) /\
    forallb good pre = true /\
    typed o = true /\ is_content o = true /\
    has_field "id" o && has_field "modified" o = false /\
    stdout
      (snd (stix_to_collection host_failing 0 (JStr "n") (JStr "1") JNull
              (world_of (bundle_of "2.1"
                           [pattern_a; malware_b; tool_no_modified; tool_c]))))
    = stdout (world_of (bundle_of "2.1"
                          [pattern_a; malware_b; tool_no_modified; tool_c]))
      ++ preamble d ++ conflicts (JStr "") (authors pre)
      ++ [ErrorMissingField o (KeyError (missing_key o))].
Proof.
  apply (none_means_missing_field host_failing 0 (JStr "n") (JStr "1") JNull
           (world_of (bundle_of "2.1"
                        [pattern_a; malware_b; tool_no_modified; tool_c]))).
  reflexivity.
Defined.

(** ** The exceptions that leave the call *)








(** ** The format of the timestamp *)

Lemma strftime_shape_witness :
  strftime clock_noon = "2024-01-02T12:00:05.000042Z".
Proof.
  rewrite (strftime_shape clock_noon).
  - reflexivity.
  - simpl. lia.
Defined.

(** ** The command line entry point *)

Lemma file_read_write path text fs :
  file_read path (file_write path text fs) = Some text.
Proof. unfold file_write; simpl. now rewrite String.eqb_refl. Qed.

(** X12. The output file is opened before the bundle is converted: when
    the input parses and the output can be opened, an exception that
    leaves [stix_to_collection] leaves [main] as well, and the output file
    is left empty, whatever it held; when input and output are the same
    path, that is the input file. *)
Theorem failed_conversion_empties_output L E a m text loaded e mem2 :
  file_read (input a) (disk m) = Some text ->
  json_load L text = Ret loaded ->
  can_write L (output a) = true ->
  stix_to_collection E (List.length (heap (memory m)))
    (name a) (version a) (description a)
    {| heap := heap (memory m) ++ [loaded]; stdout := stdout (memory m) |}
  = (Raise e, mem2) ->
  exists m',
    main L E a m = (Raise e, m') /\
    file_read (output a) (disk m') = Some "" /\
    (output a = input a -> file_read (input a) (disk m') = Some "").
Proof.
  intros Hread Hload Hopen Hrun.
  eexists. unfold main. rewrite Hread, Hload, Hopen, Hrun.
  split; [reflexivity|]. simpl. split.
  - apply file_read_write.
  - intros <-. apply file_read_write.
Qed.

Lemma failed_conversion_empties_output_witness :
  exists m',
    main (library_of (JDict (bundle_of "2.1" [JDict [("id", JStr "z")]])))
      host_stepping (sample_args "in.json" "out.json") sample_machine
    = (Raise (KeyError "type"), m') /\
    file_read (output (sample_args "in.json" "out.json")) (disk m') = Some "" /\
    (output (sample_args "in.json" "out.json")
     = input (sample_args "in.json" "out.json") ->
     file_read (input (sample_args "in.json" "out.json")) (disk m') = Some "").
Proof.
  exact (failed_conversion_empties_output
           (library_of (JDict (bundle_of "2.1" [JDict [("id", JStr "z")]])))
           host_stepping (sample_args "in.json" "out.json") sample_machine
           "text" (JDict (bundle_of "2.1" [JDict [("id", JStr "z")]]))
           (KeyError "type")
           {| heap := [JDict (bundle_of "2.1" [JDict [("id", JStr "z")]]);
                       JDict (bundle_of "2.1" [JDict [("id", JStr "z")]])];
              stdout := [] |}
           eq_refl eq_refl eq_refl eq_refl).
Defined.

(** X13. [main] does not look at what [stix_to_collection] returns: when
    the input parses, the output can be opened and the conversion returns
    [None], [main] returns normally and the output file holds
    [json.dumps(None, indent=4)], the text [null] on a library that
    renders [None] that way. *)
Theorem no_result_is_written_out L E a m text loaded mem2 :
  file_read (input a) (disk m) = Some text ->
  json_load L text = Ret loaded ->
  can_write L (output a) = true ->
  json_dumps L None = "null" ->
  stix_to_collection E (List.length (heap (memory m)))
    (name a) (version a) (description a)
    {| heap := heap (memory m) ++ [loaded]; stdout := stdout (memory m) |}
  = (Ret VNone, mem2) ->
  exists m',
    main L E a m = (Ret tt, m') /\
    file_read (output a) (disk m') = Some "null".
Proof.
  intros Hread Hload Hopen Hnull Hrun.
  eexists. unfold main. rewrite Hread, Hload, Hopen, Hrun.
  split; [reflexivity|]. simpl. now rewrite Hnull, String.eqb_refl.
Qed.

Lemma no_result_is_written_out_witness :
  exists m',
    main (library_of (JDict (bundle_of "2.1" [pattern_a; tool_no_modified])))
      host_stepping (sample_args "in.json" "out.json") sample_machine
    = (Ret tt, m') /\
    file_read (output (sample_args "in.json" "out.json")) (disk m')
    = Some "null".
Proof.
  exact (no_result_is_written_out
           (library_of (JDict (bundle_of "2.1" [pattern_a; tool_no_modified])))
           host_stepping (sample_args "in.json" "out.json") sample_machine
           "text" (JDict (bundle_of "2.1" [pattern_a; tool_no_modified]))
           (snd (stix_to_collection host_stepping 0 (JStr "n") (JStr "1") JNull
                   (world_of (bundle_of "2.1" [pattern_a; tool_no_modified]))))
           eq_refl eq_refl eq_refl eq_refl eq_refl).
Defined.

(** X14. [main] changes no file but the one named by [args.output]; and
    when the input file is missing, does not parse, or the output cannot
    be opened, it changes no file at all. *)
Theorem main_writes_only_output L E a m :
  (forall p, p <> output a ->
             file_read p (disk (snd (main L E a m))) = file_read p (disk m))
  /\
  (file_read (input a) (disk m) = None \/
   (exists text e, file_read (input a) (disk m) = Some text /\
                   json_load L text = Raise e) \/
   can_write L (output a) = false ->
   disk (snd (main L E a m)) = disk m).
Proof.
  unfold main. split.
  - intros p Hp.
    destruct (file_read (input a) (disk m)) as [text|]; auto.
    destruct (json_load L text) as [loaded|e]; auto.
    destruct (can_write L (output a)); auto.
    destruct (stix_to_collection _ _ _ _ _ _) as [[v|e] mem2]; simpl;
      (destruct (String.eqb p (output a)) eqn:Hq;
       [apply String.eqb_eq in Hq; congruence | reflexivity]).
  - intros [H | [(text & e & Hread & Hload) | H]].
    + now rewrite H.
    + now rewrite Hread, Hload.
    + destruct (file_read (input a) (disk m)) as [text|]; auto.
      destruct (json_load L text) as [loaded|e]; auto.
      now rewrite H.
Qed.

Lemma main_writes_only_output_witness :
  file_read "in.json"
    (disk (snd (main (library_of (JDict (bundle_of "2.1" sample_objects)))
                  host_stepping (sample_args "in.json" "out.json")
                  sample_machine)))
  = file_read "in.json" (disk sample_machine)
  /\
  disk (snd (main (library_of (JDict (bundle_of "2.1" sample_objects)))
               host_stepping (sample_args "missing.json" "out.json")
               sample_machine))
  = disk sample_machine.
Proof.
  split.
  - apply (proj1 (main_writes_only_output
                    (library_of (JDict (bundle_of "2.1" sample_objects)))
                    host_stepping (sample_args "in.json" "out.json")
                    sample_machine)).
    discriminate.
  - apply (proj2 (main_writes_only_output
                    (library_of (JDict (bundle_of "2.1" sample_objects)))
                    host_stepping (sample_args "missing.json" "out.json")
                    sample_machine)).
    left. reflexivity.
Defined.

(** X15. When the input parses to a bundle of good objects without a
    collection that does not say [2.0], and the output can be opened,
    [main] returns normally and the output file holds the dump of the
    bundle with the collection object in front of its objects.  Input and
    output may be the same path: the input has been read in full before
    the output is opened. *)
Theorem main_converts L E a m text d objs :
  file_read (input a) (disk m) = Some text ->
  json_load L text = Ret (JDict d) ->
  can_write L (output a) = true ->
  dict_get "objects" d = Some (JList objs) ->
  py_eq (spec_version_of d) (JStr "2.0") = false ->
  forallb passes_scan objs = true ->
  forallb good objs = true ->
  exists coll m',
    main L E a m = (Ret tt, m') /\
    file_read (output a) (disk m')
    = Some (json_dumps L
              (Some (JDict (dict_set "objects" (JList (coll :: objs)) d)))) /\
    has_type "x-mitre-collection" coll = true.
Proof.
  intros Hread Hload Hopen Ho H20 Hscan Hgood.
  exists (to_dict (summary objs
                     (new_collection E (name a) (version a) (description a)))).
  eexists. unfold main. rewrite Hread, Hload, Hopen.
  rewrite (stix_to_collection_builds _ _ _ _ _ _ d objs d objs); auto.
  - split; [reflexivity|]. split; [|reflexivity].
    simpl. rewrite String.eqb_refl. do 2 f_equal.
    rewrite length_app. simpl.
    replace (List.length (heap (memory m)) + 1)
      with (List.length (heap (memory m) ++ [JDict d]))
      by (rewrite length_app; reflexivity).
    rewrite nth_error_last. reflexivity.
  - simpl. apply nth_error_last.
  - unfold objects; simpl. now rewrite Ho.
  - now apply contains_collection_false.
  - now apply working_bundle_of_other.
Qed.

Lemma main_converts_witness :
  exists coll m',
    main (library_of (JDict (bundle_of "2.1" sample_objects)))
      host_stepping (sample_args "in.json" "in.json") sample_machine
    = (Ret tt, m') /\
    file_read (output (sample_args "in.json" "in.json")) (disk m')
    = Some (json_dumps (library_of (JDict (bundle_of "2.1" sample_objects)))
              (Some (JDict (dict_set "objects"
                              (JList (coll :: sample_objects))
                              (bundle_of "2.1" sample_objects))))) /\
    has_type "x-mitre-collection" coll = true.
Proof.
  exact (main_converts (library_of (JDict (bundle_of "2.1" sample_objects)))
           host_stepping (sample_args "in.json" "in.json") sample_machine
           "text" (bundle_of "2.1" sample_objects) sample_objects
           eq_refl eq_refl eq_refl eq_refl eq_refl eq_refl eq_refl).
Defined.
